(** * generate_ngo_data.py: a model of the dataset generator and its properties

    The script builds twenty tables, eighteen from literal dictionaries and
    two from numpy's random sampler, and writes each one with
    [DataFrame.to_csv(path, index=False)].  The model follows the script
    statement by statement.  The library calls it relies on (the DataFrame
    constructor, [.loc] assignment, [to_csv], [datetime] arithmetic and
    [np.random]) are modelled by their documented behaviour on the values the
    script gives them; the writer and the reader of [csv] follow CPython
    3.11, character by character. *)

From Stdlib Require Import ZArith Ascii String List Lia.
From stdpp Require Import base option list gmap strings pretty.

Open Scope Z_scope.

(** ** Python's [datetime]: proleptic Gregorian ordinals

    A [datetime] at midnight is its ordinal (day 1 is 0001-01-01), a
    [timedelta(days=x)] is the integer [x]; adding and subtracting are those
    of [Z].  The functions are the ones of CPython's [_pydatetime]. *)
Module Datetime.

Definition _is_leap (year : Z) : bool :=
  (year mod 4 =? 0) && (negb (year mod 100 =? 0) || (year mod 400 =? 0)).

Definition _days_before_year (year : Z) : Z :=
  let y := year - 1 in
  y * 365 + y / 4 - y / 100 + y / 400.

Definition _DAYS_IN_MONTH : list Z :=
  [-1; 31; 28; 31; 30; 31; 30; 31; 31; 30; 31; 30; 31].

Definition _DAYS_BEFORE_MONTH : list Z :=
  [-1; 0; 31; 59; 90; 120; 151; 181; 212; 243; 273; 304; 334].

Definition _days_before_month (year month : Z) : Z :=
  nth (Z.to_nat month) _DAYS_BEFORE_MONTH 0
  + (if (2 <? month) && _is_leap year then 1 else 0).

Definition _ymd2ord (year month day : Z) : Z :=
  _days_before_year year + _days_before_month year month + day.

Definition _DI400Y : Z := _days_before_year 401.
Definition _DI100Y : Z := _days_before_year 101.
Definition _DI4Y : Z := _days_before_year 5.

Definition _ord2ymd (n : Z) : Z * Z * Z :=
  let n := n - 1 in
  let n400 := n / _DI400Y in
  let n := n mod _DI400Y in
  let year := n400 * 400 + 1 in
  let n100 := n / _DI100Y in
  let n := n mod _DI100Y in
  let n4 := n / _DI4Y in
  let n := n mod _DI4Y in
  let n1 := n / 365 in
  let n := n mod 365 in
  let year := year + (n100 * 100 + n4 * 4 + n1) in
  if (n1 =? 4) || (n100 =? 4) then (year - 1, 12, 31)
  else
    let leapyear := (n1 =? 3) && (negb (n4 =? 24) || (n100 =? 3)) in
    let month := Z.shiftr (n + 50) 5 in
    let preceding :=
      nth (Z.to_nat month) _DAYS_BEFORE_MONTH 0
      + (if (2 <? month) && leapyear then 1 else 0) in
    if n <? preceding then
      let month := month - 1 in
      let preceding :=
        preceding - (nth (Z.to_nat month) _DAYS_IN_MONTH 0
                     + (if (month =? 2) && leapyear then 1 else 0)) in
      (year, month, n - preceding + 1)
    else (year, month, n - preceding + 1).

(** [datetime(y, m, d)] and the date part of [isoformat]; pandas writes a
    datetime column whose values are all at midnight as dates only. *)
Definition datetime (year month day : Z) : Z := _ymd2ord year month day.

Definition zfill (width : nat) (s : string) : string :=
  String.concat "" (repeat "0" (width - String.length s)) +:+ s.

Definition isoformat (ordinal : Z) : string :=
  let '(y, m, d) := _ord2ymd ordinal in
  zfill 4 (pretty y) +:+ "-" +:+ zfill 2 (pretty m) +:+ "-" +:+ zfill 2 (pretty d).

End Datetime.

(** ** Cell values

    What a cell of one of the script's tables can hold: a Python [int], a
    finite [float], [np.nan], a [str], or a [datetime] at midnight.  No
    arithmetic is done on floats, so a finite float is kept as the decimal
    [m * 10^-e] that [repr] prints for it. *)
Inductive value : Type :=
  | VInt (n : Z)
  | VFloat (m : Z) (e : nat)
  | VNaN
  | VStr (s : string)
  | VDate (ordinal : Z).

Global Instance value_eq_dec : EqDecision value.
Proof. solve_decision. Defined.

(** A float literal with [e] digits after the point: trailing zeros do not
    change the float ([0.10] is [0.1]). *)
Fixpoint float_lit (m : Z) (e : nat) : value :=
  match e with
  | O => VFloat m O
  | S e' => if m mod 10 =? 0 then float_lit (m / 10) e' else VFloat m e
  end.

(** [repr] of a float in the range where Python prints positional
    notation. *)
Definition float_repr (m : Z) (e : nat) : string :=
  let a := Z.abs m in
  let p := 10 ^ Z.of_nat e in
  (if m <? 0 then "-" else "") +:+ pretty (a / p) +:+ "." +:+
  match e with
  | O => "0"
  | _ => Datetime.zfill e (pretty (a mod p))
  end.

(** ** Python's [csv] module with the default dialect

    pandas writes through [csv.writer] with [QUOTE_MINIMAL], [,] as the
    delimiter, the double quote as quote character, doubled when it occurs in
    a field, and the line separator of the platform after every row, here the
    line feed of a POSIX system.  The reader is the state machine of
    [csv.reader] for the same dialect, given the lines of the file opened
    with [newline=''] as the module asks for.  Both are those of CPython
    3.11. *)
Module Csv.

Definition delimiter : ascii := ","%char.
Definition quotechar : ascii := "034"%char.
Definition LF : ascii := "010"%char.
Definition CR : ascii := "013"%char.

(** The characters that make the writer quote a field: the delimiter, the
    quote character and the characters of the line terminator, here the
    line feed alone.  A carriage return is written as it is, unquoted. *)
Definition special (c : ascii) : bool :=
  (c =? delimiter)%char || (c =? quotechar)%char || (c =? LF)%char.

Fixpoint needs_quote (s : string) : bool :=
  match s with
  | EmptyString => false
  | String c r => special c || needs_quote r
  end.

Fixpoint double_quotes (s : string) : string :=
  match s with
  | EmptyString => EmptyString
  | String c r =>
      if (c =? quotechar)%char then String c (String c (double_quotes r))
      else String c (double_quotes r)
  end.

Definition quote_field (s : string) : string :=
  if needs_quote s
  then String quotechar (double_quotes s +:+ String quotechar EmptyString)
  else s.

Fixpoint join_fields (fields : list string) (tail : string) : string :=
  match fields with
  | [] => tail
  | [f] => quote_field f +:+ tail
  | f :: fs => quote_field f +:+ String delimiter (join_fields fs tail)
  end.

(** [writer.writerow]: a row that is one empty field is written quoted, so
    that it is not read back as an empty line. *)
Definition writerow (row : list string) : string :=
  match row with
  | [EmptyString] => String quotechar (String quotechar (String LF EmptyString))
  | _ => join_fields row (String LF EmptyString)
  end.

Definition writerows (rows : list (list string)) : string :=
  String.concat "" (map writerow rows).

(** The reader.  [parse st s] is the list of the rows still to come, the
    first of which starts with what is left of the field being read.  A
    line of the file ends after a line feed, after a carriage return, or
    after a carriage return and the line feed that follows it; outside
    quotes each of them ends the row, and in [EatCRNL], after a carriage
    return, the line feed of the same line end is skipped.  The reader
    refuses a field of more than [field_size_limit] characters, which
    [parse] does not follow: it stands for the reader on fields within the
    limit. *)
Inductive state :=
  StartRecord | StartField | InField | InQuoted | QuoteInQuoted | EatCRNL.

Definition field_size_limit : Z := 131072.

Definition push (c : ascii) (rows : list (list string)) : list (list string) :=
  match rows with
  | (f :: fs) :: rs => (String c f :: fs) :: rs
  | [] :: rs => [String c EmptyString] :: rs
  | [] => [[String c EmptyString]]
  end.

Definition end_field (rows : list (list string)) : list (list string) :=
  match rows with
  | r :: rs => (EmptyString :: r) :: rs
  | [] => [[EmptyString]]
  end.

Definition end_row (rows : list (list string)) : list (list string) :=
  [EmptyString] :: rows.

Fixpoint parse (st : state) (s : string) : list (list string) :=
  match s with
  | EmptyString =>
      match st with
      | StartRecord | EatCRNL => []
      | _ => [[EmptyString]]
      end
  | String c r =>
      match st with
      | StartRecord =>
          if (c =? LF)%char then [] :: parse StartRecord r
          else if (c =? CR)%char then [] :: parse EatCRNL r
          else if (c =? quotechar)%char then parse InQuoted r
          else if (c =? delimiter)%char then end_field (parse StartField r)
          else push c (parse InField r)
      | StartField =>
          if (c =? LF)%char then end_row (parse StartRecord r)
          else if (c =? CR)%char then end_row (parse EatCRNL r)
          else if (c =? quotechar)%char then parse InQuoted r
          else if (c =? delimiter)%char then end_field (parse StartField r)
          else push c (parse InField r)
      | InField =>
          if (c =? LF)%char then end_row (parse StartRecord r)
          else if (c =? CR)%char then end_row (parse EatCRNL r)
          else if (c =? delimiter)%char then end_field (parse StartField r)
          else push c (parse InField r)
      | InQuoted =>
          if (c =? quotechar)%char then parse QuoteInQuoted r
          else push c (parse InQuoted r)
      | QuoteInQuoted =>
          if (c =? quotechar)%char then push c (parse InQuoted r)
          else if (c =? LF)%char then end_row (parse StartRecord r)
          else if (c =? CR)%char then end_row (parse EatCRNL r)
          else if (c =? delimiter)%char then end_field (parse StartField r)
          else push c (parse InField r)
      | EatCRNL =>
          if (c =? LF)%char then parse StartRecord r
          else if (c =? CR)%char then [] :: parse EatCRNL r
          else if (c =? quotechar)%char then parse InQuoted r
          else if (c =? delimiter)%char then end_field (parse StartField r)
          else push c (parse InField r)
      end
  end.

Definition reader (s : string) : list (list string) := parse StartRecord s.

(** Reading the characters of [f] into the field being read. *)
Fixpoint prepend (f : string) (rows : list (list string)) : list (list string) :=
  match f with
  | EmptyString => rows
  | String c r => push c (prepend r rows)
  end.

(** A character that ends an unquoted field. *)
Definition ends_field (c : ascii) : bool := (c =? delimiter)%char || (c =? LF)%char.

(** A field without a carriage return.  One that holds a carriage return
    and nothing that makes the writer quote it is written unquoted and read
    back as the end of a row. *)
Fixpoint no_CR (s : string) : bool :=
  match s with
  | EmptyString => true
  | String c r => negb (c =? CR)%char && no_CR r
  end.

(** Rows of fields that the reader gives back as they were written. *)
Definition readable (rows : list (list string)) : Prop :=
  Forall (Forall (fun f => no_CR f = true /\
                           Z.of_nat (String.length f) <= field_size_limit))
         rows.

End Csv.

(** ** pandas: columns, frames, [.loc] assignment and [to_csv] *)
Module Pandas.

Inductive dtype := int64 | float64 | datetime64 | object.

Global Instance dtype_eq_dec : EqDecision dtype.
Proof. solve_decision. Defined.

Record Series := mkSeries { dtype_of : dtype; values : list value }.

Global Instance Series_eq_dec : EqDecision Series.
Proof. solve_decision. Defined.

(** A frame keeps its columns in the order of the dictionary it was built
    from. *)
Definition DataFrame := list (string * Series).

Definition is_int (v : value) : bool :=
  match v with VInt _ => true | _ => false end.
Definition is_number (v : value) : bool :=
  match v with VInt _ | VFloat _ _ | VNaN => true | _ => false end.
Definition is_date (v : value) : bool :=
  match v with VDate _ => true | _ => false end.

(** Column type inference of the constructor: integers alone give
    [int64]; integers, floats and [nan] give [float64]; datetimes give
    [datetime64]; anything else is kept as Python objects. *)
Definition infer_dtype (l : list value) : dtype :=
  match l with
  | [] => object
  | _ =>
      if forallb is_int l then int64
      else if forallb is_number l then float64
      else if forallb is_date l then datetime64
      else object
  end.

(** The [float64] nearest to an integer, which is an integer again: the
    integer itself up to [2^53] in absolute value; beyond, the integer
    rounded to 53 significant bits, a tie to the even one. *)
Definition float64_of_int (n : Z) : Z :=
  let a := Z.abs n in
  let k := Z.log2 a - 52 in
  if k <=? 0 then n
  else
    let q := Z.shiftr a k in
    let r := Z.land a (Z.ones k) in
    let half := Z.shiftl 1 (k - 1) in
    let q := if (half <? r) || ((r =? half) && Z.odd q) then q + 1 else q in
    Z.sgn n * Z.shiftl q k.

Definition astype_float (v : value) : value :=
  match v with VInt n => VFloat (float64_of_int n) 0 | _ => v end.

Definition make_series (l : list value) : Series :=
  match infer_dtype l with
  | float64 => mkSeries float64 (map astype_float l)
  | d => mkSeries d l
  end.

Definition same_length (data : list (string * list value)) : bool :=
  match data with
  | [] => true
  | (_, l) :: rest =>
      forallb (fun kv => Nat.eqb (length (snd kv)) (length l)) rest
  end.

(** [pd.DataFrame(data)]: a [ValueError] when the lists differ in
    length. *)
Definition pd_DataFrame (data : list (string * list value)) : option DataFrame :=
  if same_length data
  then Some (map (fun kv => (fst kv, make_series (snd kv))) data)
  else None.

Definition columns (df : DataFrame) : list string := map fst df.

Definition nrows (df : DataFrame) : nat :=
  match df with
  | [] => O
  | (_, s) :: _ => length (values s)
  end.

(** [df[col]]: a [KeyError] when there is no such column. *)
Fixpoint getitem (df : DataFrame) (col : string) : option Series :=
  match df with
  | [] => None
  | (k, s) :: rest => if String.eqb k col then Some s else getitem rest col
  end.

(** [df[col] = s] for a column [s] that has the index of [df], as one
    computed from the columns of [df] has: replaces the column in place, or
    appends a new one.  (pandas aligns a column with another index to the
    index of the frame; the script assigns no such column.) *)
Fixpoint setitem (df : DataFrame) (col : string) (s : Series) : DataFrame :=
  match df with
  | [] => [(col, s)]
  | (k, old) :: rest =>
      if String.eqb k col then (k, s) :: rest
      else (k, old) :: setitem rest col s
  end.

Definition cell (df : DataFrame) (col : string) (i : nat) : option value :=
  s ← getitem df col; values s !! i.

(** [s == v], element by element; [nan] is equal to nothing. *)
Definition eq_mask (s : Series) (v : value) : list bool :=
  map (fun x => match x with VNaN => false | _ => bool_decide (x = v) end)
      (values s).

Fixpoint mask_assign (mask : list bool) (v : value) (l : list value) : list value :=
  match mask, l with
  | b :: mask', x :: l' => (if b then v else x) :: mask_assign mask' v l'
  | _, _ => l
  end.

(** [df.loc[mask, col] = v].  An object column stays one; another column
    is retyped for its new contents (an integer column that receives [nan]
    becomes [float64]).  A missing column is added, [nan] where the mask is
    false. *)
Definition loc_setitem (df : DataFrame) (mask : list bool) (col : string)
    (v : value) : DataFrame :=
  match getitem df col with
  | Some s =>
      let l := mask_assign mask v (values s) in
      setitem df col
        (match dtype_of s with
         | object => mkSeries object l
         | _ => make_series l
         end)
  | None =>
      setitem df col
        (make_series (map (fun b : bool => if b then v else VNaN) mask))
  end.

(** [s + pd.to_timedelta(days, unit='D')]: defined on a datetime column
    and as many offsets as it has rows. *)
Definition add_days (s : Series) (days : list Z) : option Series :=
  match dtype_of s with
  | datetime64 =>
      if Nat.eqb (length (values s)) (length days) then
        Some (mkSeries datetime64
                (zip_with (fun v d => match v with
                                      | VDate o => VDate (o + d)
                                      | _ => v
                                      end) (values s) days))
      else None
  | _ => None
  end.

(** What [to_csv] writes for a cell: missing values are the empty field
    ([na_rep] is the empty string). *)
Definition render (v : value) : string :=
  match v with
  | VInt n => pretty n
  | VFloat m e => float_repr m e
  | VNaN => EmptyString
  | VStr s => s
  | VDate o => Datetime.isoformat o
  end.

Definition row (df : DataFrame) (i : nat) : list value :=
  map (fun kv => nth i (values (snd kv)) VNaN) df.

Definition rows (df : DataFrame) : list (list value) :=
  map (row df) (seq 0 (nrows df)).

(** The text of [df.to_csv(path, index=False)]: the header, then one
    line for every row, and no index column. *)
Definition csv_rows (df : DataFrame) : list (list string) :=
  columns df :: map (map render) (rows df).

Definition csv_text (df : DataFrame) : string := Csv.writerows (csv_rows df).

End Pandas.

(** ** The run-time environment

    The script reads nothing.  It writes files, prints to standard output and
    draws from numpy's global generator; a run is followed through the state
    of that generator and the sequence of writes and prints it has made.  A
    library call that raises ends the run ([None]). *)
Inductive event : Type :=
  | Write (path : string) (text : string)
  | Print (line : string).

Record world (G : Type) : Type := mkWorld { rng : G; events : list event }.
Arguments mkWorld {G} _ _.
Arguments rng {G} _.
Arguments events {G} _.

(** A computation that can raise and that threads a state [S]: the
    generator alone for the sampling calls, the whole [world] for the
    script. *)
Definition ST (S A : Type) : Type := S -> option (A * S).

Definition ret {S A : Type} (a : A) : ST S A := fun s => Some (a, s).

Definition bind {S A B : Type} (m : ST S A) (k : A -> ST S B) : ST S B :=
  fun s => match m s with
           | Some (a, s') => k a s'
           | None => None
           end.

Definition lift {S A : Type} (o : option A) : ST S A :=
  fun s => match o with Some a => Some (a, s) | None => None end.

Notation "'let*' x ':=' m 'in' k" := (bind m (fun x => k))
  (at level 10, x name, m at level 100, k at level 200).
Notation "m ';;' k" := (bind m (fun _ => k))
  (at level 100, k at level 200, right associativity).

Definition sampling {G A : Type} (m : ST G A) : ST (world G) A :=
  fun w => match m (rng w) with
           | Some (a, g) => Some (a, mkWorld g (events w))
           | None => None
           end.

Definition to_csv {G : Type} (df : Pandas.DataFrame) (path : string) : ST (world G) unit :=
  fun w => Some (tt, mkWorld (rng w) (events w ++ [Write path (Pandas.csv_text df)])).

Definition print {G : Type} (line : string) : ST (world G) unit :=
  fun w => Some (tt, mkWorld (rng w) (events w ++ [Print line])).

(** The files a sequence of events leaves behind, and what it printed. *)
Definition apply_event (fs : gmap string string) (e : event) : gmap string string :=
  match e with
  | Write path text => <[path := text]> fs
  | Print _ => fs
  end.

Definition files_after (evs : list event) (fs : gmap string string) : gmap string string :=
  fold_left apply_event evs fs.

Definition printed (evs : list event) : list string :=
  omap (fun e => match e with Print l => Some l | Write _ _ => None end) evs.

Definition written (evs : list event) : list (string * string) :=
  omap (fun e => match e with Write p t => Some (p, t) | Print _ => None end) evs.

(** ** numpy: [arange] and the sampling calls

    The generator is a state [G] with one primitive, [draw g k], the next
    integer below [k] and the next state.  numpy documents [randint] and
    [choice] as uniform; here that is the way both are built from one bounded
    draw. *)
Definition np_arange (start stop : Z) : list Z :=
  map (fun i => start + Z.of_nat i) (seq 0 (Z.to_nat (stop - start))).

Section Sampling.
Context {G : Type} (draw : G -> Z -> Z * G).

Fixpoint draws (n : nat) (k : Z) (g : G) : list Z * G :=
  match n with
  | O => ([], g)
  | S n' =>
      let (x, g1) := draw g k in
      let (xs, g2) := draws n' k g1 in
      (x :: xs, g2)
  end.

(** [np.random.randint(low, high, size)]: [size] integers of
    [low .. high - 1]; a [ValueError] when [low >= high]. *)
Definition np_random_randint (low high : Z) (size : nat) : ST G (list Z) :=
  fun g =>
    if low <? high then
      let (xs, g') := draws size (high - low) g in
      Some (map (fun x => low + x) xs, g')
    else None.

(** [np.random.choice(a, size)]: [size] elements of [a], each at a drawn
    index; a [ValueError] when [a] is empty. *)
Definition np_random_choice {A : Type} (a : list A) (size : nat) : ST G (list A) :=
  fun g =>
    match a with
    | [] => None
    | d :: _ =>
        let (xs, g') := draws size (Z.of_nat (length a)) g in
        Some (map (fun x => nth (Z.to_nat x) a d) xs, g')
    end.

End Sampling.

(** ** The literal dictionaries of the script *)
Definition ints (l : list Z) : list value := map VInt l.
Definition strs (l : list string) : list value := map VStr l.

Definition data_projects : list (string * list value) :=
  [ ("ProjectID", ints [101; 102; 103; 104; 105]);
    ("Region", strs ["East Africa"; "South Asia"; "West Africa"; "East Africa"; "South Asia"]);
    ("StartDate", strs ["2023-01-15"; "2023-02-01"; "2023-03-10"; "2023-04-05"; "2023-05-20"]);
    ("EndDate", strs ["2023-06-30"; "2023-07-15"; "2023-08-20"; "2023-09-10"; "2023-10-30"]);
    ("Budget", ints [150000; 200000; 120000; 180000; 250000]) ].

Definition data_beneficiary_basic : list (string * list value) :=
  [ ("BeneficiaryID", ints [1; 2; 3; 4; 5]);
    ("Age", ints [25; 34; 28; 40; 30]);
    ("Gender", strs ["Female"; "Male"; "Female"; "Male"; "Female"]);
    ("Location", strs ["Camp A"; "Village B"; "Camp A"; "Village C"; "Camp B"]);
    ("AssistanceType", strs ["Food"; "Shelter"; "Medical"; "Food"; "Shelter"]) ].

Definition data_missing : list (string * list value) :=
  [ ("BeneficiaryID", ints [1; 2; 3; 4; 5; 6; 7]);
    ("Age", [VInt 25; VInt 34; VNaN; VInt 45; VInt 19; VNaN; VInt 50]);
    ("Gender", strs ["Female"; "Male"; "Female"; "Male"; "Female"; "Male"; "Female"]);
    ("Location", strs ["Camp A"; "Village B"; "Camp A"; "Village C"; "Camp B"; "Village B"; "Camp A"]);
    ("AssistanceType", [VStr "Food"; VStr "Shelter"; VNaN; VStr "Food"; VStr "Medical"; VStr "Shelter"; VStr "Food"]) ].

Definition data_project_updates : list (string * list value) :=
  [ ("UpdateID", ints [1; 2; 3; 4; 5; 6]);
    ("ProjectID", ints [101; 102; 101; 103; 102; 104]);
    ("Date", strs ["2023-01-20"; "2023-02-05"; "2023-03-15"; "2023-04-10"; "2023-05-25"; "2023-06-05"]);
    ("Status", [VStr "On Track"; VStr "Completed"; VNaN; VStr "Delayed"; VStr "On Track"; VNaN]);
    ("Notes", [VStr "Initial report"; VStr "Finalized"; VStr "Needs review"; VNaN; VStr "Mid-term update"; VNaN]) ].

Definition data_health : list (string * list value) :=
  [ ("PatientID", ints [1; 2; 3; 4; 5; 6; 7; 8; 9; 10]);
    ("Age", ints [30; 45; 22; 60; 35; 50; 28; 42; 55; 65]);
    ("Weight", ints [70; 85; 60; 90; 75; 80; 65; 78; 88; 92]);
    ("Diagnosis", strs ["Flu"; "Malaria"; "Flu"; "Typhoid"; "Flu"; "Malaria"; "Flu"; "Typhoid"; "Malaria"; "Flu"]);
    ("Medication", [VStr "A"; VStr "B"; VNaN; VStr "C"; VStr "A"; VStr "B"; VNaN; VStr "C"; VStr "B"; VNaN]) ].

Definition data_messy : list (string * list value) :=
  [ ("ProjectID", strs ["101"; "102"; "103 "; "104"; "105"]);
    ("Region", strs ["East Africa "; "south asia"; "WEST AFRICA"; "East Africa"; "South Asia"]);
    ("Status", strs ["Active"; "Completed "; "Pending"; "active"; "Completed"]);
    ("Budget", strs ["150000"; "200000"; "120000"; "180000"; "250000"]) ].

Definition data_item : list (string * list value) :=
  [ ("Item", strs ["   apple"; "BANANA "; "orange"; " GRAPES  "]);
    ("Quantity", strs ["10"; "5"; "12"; "8"]);
    ("Price", strs ["1.20"; "0.75"; "2.50"; "3.00"]) ].

Definition data_advanced_messy : list (string * list value) :=
  [ ("ProjectCode", strs ["NGO-101"; "PROJ_102"; "NGO-103"; "P-104"; "NGO-105"]);
    ("Description", strs ["Food distribution in area A"; "Shelter for displaced families"; "Medical aid for children"; "Water sanitation project"; "Education support"]);
    ("StartDate", strs ["2023/01/15"; "02-01-2023"; "March 10, 2023"; "2023-04-05"; "2023-05-20"]);
    ("Beneficiaries", strs ["1,500"; "2,000"; "1,200"; "1,800"; "2,500"]) ].

Definition data_transaction : list (string * list value) :=
  [ ("TransactionID", strs ["TRX-ABC-123"; "TXN_DEF_456"; "GHI789"; "TRX-JKL-010"]);
    ("Timestamp", strs ["2023-01-01 10:30:00"; "Jan 2, 23 11:00 AM"; "03/03/2023 13:45"; "2023-04-04 09:00:00"]);
    ("Amount", ints [100; 200; 150; 300]) ].

Definition data_projects_cleaned : list (string * list value) :=
  [ ("ProjectID", ints [101; 102; 103; 104; 105; 106; 107]);
    ("Region", strs ["East Africa"; "South Asia"; "West Africa"; "East Africa"; "South Asia"; "West Africa"; "East Africa"]);
    ("Budget", ints [150000; 200000; 120000; 180000; 250000; 130000; 190000]);
    ("Status", strs ["Active"; "Completed"; "Active"; "Completed"; "Active"; "Pending"; "Active"]);
    ("StartDate", strs ["2023-01-15"; "2023-02-01"; "2023-03-10"; "2023-04-05"; "2023-05-20"; "2023-06-01"; "2023-07-10"]) ].

Definition data_beneficiary_records : list (string * list value) :=
  [ ("BeneficiaryID", ints [1; 2; 3; 4; 5; 6; 7; 8]);
    ("Age", ints [25; 34; 28; 40; 30; 22; 45; 38]);
    ("Gender", strs ["Female"; "Male"; "Female"; "Male"; "Female"; "Male"; "Female"; "Male"]);
    ("Location", strs ["Camp A"; "Village B"; "Camp A"; "Village C"; "Camp B"; "Village B"; "Camp A"; "Village C"]);
    ("AssistanceReceived", strs ["Food"; "Shelter"; "Medical"; "Food"; "Shelter"; "Food"; "Medical"; "Shelter"]) ].

Definition data_aid_distribution : list (string * list value) :=
  [ ("Country", strs ["Kenya"; "Uganda"; "Kenya"; "Ethiopia"; "Uganda"; "Kenya"; "Ethiopia"; "Uganda"]);
    ("AidType", strs ["Food"; "Medical"; "Shelter"; "Food"; "Medical"; "Food"; "Shelter"; "Food"]);
    ("AmountUSD", ints [100000; 150000; 80000; 120000; 200000; 90000; 110000; 180000]);
    ("Year", ints [2022; 2022; 2023; 2022; 2023; 2023; 2023; 2022]) ].

Definition data_beneficiary_dedup : list (string * list value) :=
  [ ("BeneficiaryID", ints [1; 2; 3; 1; 4; 5; 2; 6]);
    ("Age", ints [25; 34; 28; 25; 40; 30; 34; 55]);
    ("Gender", strs ["Female"; "Male"; "Female"; "Female"; "Male"; "Female"; "Male"; "Male"]);
    ("AssistanceType", strs ["Food"; "Shelter"; "Food"; "Food"; "Medical"; "Shelter"; "Shelter"; "Food"]);
    ("Location", strs ["Camp A"; "Village B"; "Camp A"; "Camp A"; "Village C"; "Camp B"; "Village B"; "Camp A"]) ].

Definition data_event_logs : list (string * list value) :=
  [ ("LogID", ints [1; 2; 3; 4; 5; 6; 7; 8]);
    ("Timestamp", strs ["2023-01-01 10:00:00"; "2023-01-01 10:05:00"; "2023-01-01 10:00:00"; "2023-01-02 11:00:00"; "2023-01-01 10:05:00"; "2023-01-03 12:00:00"; "2023-01-02 11:00:00"; "2023-01-04 13:00:00"]);
    ("EventType", strs ["Login"; "View Page"; "Login"; "Logout"; "View Page"; "Login"; "Logout"; "View Page"]);
    ("UserID", strs ["userA"; "userB"; "userA"; "userC"; "userB"; "userA"; "userC"; "userD"]) ].

Definition data_partners : list (string * list value) :=
  [ ("OrgID", ints [1; 2; 3; 4; 5; 6; 7]);
    ("OrgName", strs ["Save the Children"; "Save The Children Intl."; "Doctors Without Borders"; "Medecins Sans Frontieres"; "Save Childrn"; "Doctors W/O Borders"; "Save the Children"]);
    ("ContactPerson", strs ["Alice"; "Bob"; "Charlie"; "David"; "Eve"; "Frank"; "Grace"]);
    ("City", strs ["New York"; "NYC"; "Paris"; "Paris"; "New-York"; "London"; "New York"]) ].

Definition data_health_records : list (string * list value) :=
  [ ("PatientID", ints [1; 2; 3; 4; 5; 6; 7; 8; 9; 10]);
    ("WeightKg", ints [70; 85; 60; 90; 75; 80; 65; 78; 88; 92]);
    ("HeightCm", ints [175; 180; 160; 185; 170; 178; 165; 172; 182; 190]);
    ("BloodPressureSystolic", ints [120; 135; 110; 150; 125; 140; 115; 130; 145; 160]);
    ("BloodPressureDiastolic", ints [80; 85; 70; 95; 82; 90; 75; 80; 92; 100]) ].

Definition data_school : list (string * list value) :=
  [ ("SchoolID", ints [1; 2; 3; 4; 5; 6; 7; 8]);
    ("District", strs ["North"; "South"; "East"; "West"; "North"; "South"; "East"; "West"]);
    ("Enrollment", ints [500; 700; 600; 800; 550; 720; 630; 850]);
    ("FundingPerStudent", ints [1000; 950; 1100; 900; 1050; 980; 1120; 920]);
    ("TestScoreAverage", ints [75; 80; 70; 85; 78; 82; 72; 88]) ].

Definition data_poverty : list (string * list value) :=
  [ ("District", strs ["North"; "South"; "East"; "West"]);
    ("PovertyRate", [float_lit 15 2; float_lit 10 2; float_lit 20 2; float_lit 8 2]) ].

(** ** The tables of the script

    The literal tables do not depend on the generator: each is the frame
    built from its dictionary, [None] if the constructor raises. *)
Definition df_projects := Pandas.pd_DataFrame data_projects.
Definition df_beneficiary_basic := Pandas.pd_DataFrame data_beneficiary_basic.
Definition df_missing := Pandas.pd_DataFrame data_missing.
Definition df_project_updates := Pandas.pd_DataFrame data_project_updates.

(** [df_health.loc[df_health['Diagnosis'] == 'Flu', 'Medication'] = np.nan] *)
Definition flu_override (df : Pandas.DataFrame) : option Pandas.DataFrame :=
  diagnosis ← Pandas.getitem df "Diagnosis";
  Some (Pandas.loc_setitem df (Pandas.eq_mask diagnosis (VStr "Flu")) "Medication" VNaN).

Definition df_health : option Pandas.DataFrame :=
  Pandas.pd_DataFrame data_health ≫= flu_override.

Definition df_messy := Pandas.pd_DataFrame data_messy.
Definition df_item := Pandas.pd_DataFrame data_item.
Definition df_advanced_messy := Pandas.pd_DataFrame data_advanced_messy.
Definition df_transaction := Pandas.pd_DataFrame data_transaction.
Definition df_projects_cleaned := Pandas.pd_DataFrame data_projects_cleaned.
Definition df_beneficiary_records := Pandas.pd_DataFrame data_beneficiary_records.
Definition df_aid_distribution := Pandas.pd_DataFrame data_aid_distribution.
Definition df_beneficiary_dedup := Pandas.pd_DataFrame data_beneficiary_dedup.
Definition df_event_logs := Pandas.pd_DataFrame data_event_logs.
Definition df_partners := Pandas.pd_DataFrame data_partners.
Definition df_health_records := Pandas.pd_DataFrame data_health_records.
Definition df_school := Pandas.pd_DataFrame data_school.
Definition df_poverty := Pandas.pd_DataFrame data_poverty.

Definition num_rows_large : Z := 100000.
Definition num_rows_country : Z := 100000.

Definition countries : list string :=
  ["United States"; "USA"; "United States of America"; "   united states";
   "Canada"; "Mexico"; "UK"; "United Kingdom"].

Definition starts_with_space (s : string) : bool :=
  match s with
  | String " " _ => true
  | _ => false
  end.

Definition start_date : Z := Datetime.datetime 2020 1 1.
Definition end_date : Z := Datetime.datetime 2023 12 31.

(** [range(n)] *)
Definition range (n : Z) : list Z := map Z.of_nat (seq 0 (Z.to_nat n)).

Definition date_range : list Z :=
  map (fun x => start_date + x) (range (end_date - start_date)).

Definition success_message : string :=
  "All synthetic NGO datasets generated successfully.".

Section Script.
Context {G : Type} (draw : G -> Z -> Z * G).

Definition df_large_sample : ST G Pandas.DataFrame :=
  let size := Z.to_nat num_rows_large in
  let project_id := np_arange 1 (num_rows_large + 1) in
  let* region := np_random_choice draw
      ["East Africa"; "South Asia"; "West Africa"; "Latin America"] size in
  let* status := np_random_choice draw ["Active"; "Completed"; "Pending"] size in
  let* budget := np_random_randint draw 50000 500000 size in
  lift (Pandas.pd_DataFrame
          [ ("ProjectID", ints project_id);
            ("Region", strs region);
            ("Status", strs status);
            ("Budget", ints budget) ]).

Definition df_country : ST G Pandas.DataFrame :=
  let size := Z.to_nat num_rows_country in
  let* country := np_random_choice draw countries size in
  let* event_date := np_random_choice draw date_range size in
  let* report_date := np_random_choice draw date_range size in
  let* df := lift (Pandas.pd_DataFrame
                     [ ("Country", strs country);
                       ("EventDate", map VDate event_date);
                       ("ReportDate", map VDate report_date) ]) in
  let* event := lift (Pandas.getitem df "EventDate") in
  let* offsets := np_random_randint draw 1 30 size in
  let* report := lift (Pandas.add_days event offsets) in
  ret (Pandas.setitem df "ReportDate" report).

(** The four sampling calls of [df_country] in the order they are made,
    each from the state the one before left: countries, event dates, the
    report dates that are replaced afterwards, and the offsets. *)
Definition country_draws (g : G) : list Z * G :=
  draws draw (Z.to_nat num_rows_country) (Z.of_nat (length countries)) g.
Definition event_draws (g : G) : list Z * G :=
  draws draw (Z.to_nat num_rows_country) (Z.of_nat (length date_range))
    (snd (country_draws g)).
Definition report_draws (g : G) : list Z * G :=
  draws draw (Z.to_nat num_rows_country) (Z.of_nat (length date_range))
    (snd (event_draws g)).
Definition offset_draws (g : G) : list Z * G :=
  draws draw (Z.to_nat num_rows_country) (30 - 1) (snd (report_draws g)).

Definition generate_ngo_data : ST (world G) unit :=
  let* df := lift df_projects in
  to_csv df "ngo_projects.csv" ;;
  let* df := lift df_beneficiary_basic in
  to_csv df "beneficiary_data.csv" ;;
  let* df := sampling df_large_sample in
  to_csv df "large_ngo_projects.csv" ;;
  let* df := lift df_missing in
  to_csv df "beneficiary_data_missing.csv" ;;
  let* df := lift df_project_updates in
  to_csv df "project_updates.csv" ;;
  let* df := lift df_health in
  to_csv df "health_data.csv" ;;
  let* df := lift df_messy in
  to_csv df "messy_data.csv" ;;
  let* df := lift df_item in
  to_csv df "item_data.csv" ;;
  let* df := lift df_advanced_messy in
  to_csv df "advanced_messy_data.csv" ;;
  let* df := lift df_transaction in
  to_csv df "transaction_data.csv" ;;
  let* df := sampling df_country in
  to_csv df "large_country_data.csv" ;;
  let* df := lift df_projects_cleaned in
  to_csv df "ngo_projects_cleaned.csv" ;;
  let* df := lift df_beneficiary_records in
  to_csv df "beneficiary_records.csv" ;;
  let* df := lift df_aid_distribution in
  to_csv df "aid_distribution.csv" ;;
  let* df := lift df_beneficiary_dedup in
  to_csv df "beneficiary_data_dedup.csv" ;;
  let* df := lift df_event_logs in
  to_csv df "event_logs.csv" ;;
  let* df := lift df_partners in
  to_csv df "partner_organizations.csv" ;;
  let* df := lift df_health_records in
  to_csv df "health_records.csv" ;;
  let* df := lift df_school in
  to_csv df "school_data.csv" ;;
  let* df := lift df_poverty in
  to_csv df "district_poverty.csv" ;;
  print success_message.

End Script.

(** ** Reading a written file back

    The script reads nothing back itself.  To state what a file holds, it is
    read with [csv.reader], either as named columns of fields ([read_text])
    or with each field converted by a type given for its column
    ([read_csv]): the empty field is the missing value in a float or object
    column, and a field that is not a literal of the type of its column is an
    error. *)
Module ReadBack.

Definition digit (c : ascii) : option Z :=
  let code := Z.of_N (N_of_ascii c) in
  if (48 <=? code) && (code <=? 57) then Some (code - 48) else None.

Fixpoint digits (acc : Z) (s : string) : option Z :=
  match s with
  | EmptyString => Some acc
  | String c r => d ← digit c; digits (acc * 10 + d) r
  end.

Definition parse_nat (s : string) : option Z :=
  match s with
  | EmptyString => None
  | _ => digits 0 s
  end.

Definition parse_int (s : string) : option Z :=
  match s with
  | String "-" r => Z.opp <$> parse_nat r
  | _ => parse_nat s
  end.

(** Splits at the first occurrence of [c]. *)
Fixpoint split_at (c : ascii) (s : string) : option (string * string) :=
  match s with
  | EmptyString => None
  | String x r =>
      if (x =? c)%char then Some (EmptyString, r)
      else '(a, b) ← split_at c r; Some (String x a, b)
  end.

Definition parse_unsigned_float (s : string) : option (Z * nat) :=
  '(ip, fp) ← split_at "." s;
  i ← parse_nat ip;
  f ← parse_nat fp;
  Some (i * 10 ^ Z.of_nat (String.length fp) + f, String.length fp).

Definition parse_float (s : string) : option value :=
  match s with
  | String "-" r => '(m, e) ← parse_unsigned_float r; Some (float_lit (- m) e)
  | _ => '(m, e) ← parse_unsigned_float s; Some (float_lit m e)
  end.

Definition parse_date (s : string) : option value :=
  '(y, md) ← split_at "-" s;
  '(m, d) ← split_at "-" md;
  y ← parse_nat y; m ← parse_nat m; d ← parse_nat d;
  Some (VDate (Datetime.datetime y m d)).

Definition read_cell (d : Pandas.dtype) (s : string) : option value :=
  match d with
  | Pandas.int64 => VInt <$> parse_int s
  | Pandas.float64 =>
      match s with EmptyString => Some VNaN | _ => parse_float s end
  | Pandas.datetime64 => parse_date s
  | Pandas.object =>
      Some (match s with EmptyString => VNaN | _ => VStr s end)
  end.

(** A field that reads as a number. *)
Definition numeric (s : string) : bool :=
  bool_decide (is_Some (parse_int s)) || bool_decide (is_Some (parse_float s)).

Definition numeric_or_empty (s : string) : bool :=
  match s with EmptyString => true | _ => numeric s end.

Fixpoint read_columns (j : nat) (header : list string) (dtypes : list Pandas.dtype)
    (body : list (list string)) : option Pandas.DataFrame :=
  match header, dtypes with
  | [], [] => Some []
  | name :: header', d :: dtypes' =>
      vals ← mapM (fun r => f ← r !! j; read_cell d f) body;
      rest ← read_columns (S j) header' dtypes' body;
      Some ((name, Pandas.mkSeries d vals) :: rest)
  | _, _ => None
  end.

(** Reads a file whose columns have the given types. *)
Definition read_csv (dtypes : list Pandas.dtype) (text : string) : option Pandas.DataFrame :=
  match Csv.reader text with
  | [] => None
  | header :: body =>
      if forallb (fun r => Nat.eqb (length r) (length header)) body
      then read_columns 0 header dtypes body
      else None
  end.

Definition dtypes (df : Pandas.DataFrame) : list Pandas.dtype :=
  map (fun kv => Pandas.dtype_of (snd kv)) df.

(** Reads a file as named columns of fields, nothing converted. *)
Fixpoint text_columns (j : nat) (header : list string) (body : list (list string))
    : option (list (string * list string)) :=
  match header with
  | [] => Some []
  | name :: header' =>
      fields ← mapM (fun r : list string => r !! j) body;
      rest ← text_columns (S j) header' body;
      Some ((name, fields) :: rest)
  end.

Definition read_text (text : string) : option (list (string * list string)) :=
  match Csv.reader text with
  | [] => None
  | header :: body =>
      if forallb (fun r => Nat.eqb (length r) (length header)) body
      then text_columns 0 header body
      else None
  end.

End ReadBack.

(** ** What a run writes

    The file of every table and, for the literal ones, its dictionary and
    frame, in the order of the script. *)
Definition output_files : list string :=
  [ "ngo_projects.csv"; "beneficiary_data.csv"; "large_ngo_projects.csv";
    "beneficiary_data_missing.csv"; "project_updates.csv"; "health_data.csv";
    "messy_data.csv"; "item_data.csv"; "advanced_messy_data.csv";
    "transaction_data.csv"; "large_country_data.csv"; "ngo_projects_cleaned.csv";
    "beneficiary_records.csv"; "aid_distribution.csv"; "beneficiary_data_dedup.csv";
    "event_logs.csv"; "partner_organizations.csv"; "health_records.csv";
    "school_data.csv"; "district_poverty.csv" ].

Record literal_table : Type := mkLiteral {
  file : string;
  data : list (string * list value);
  frame : option Pandas.DataFrame
}.

Definition literal_tables : list literal_table :=
  [ mkLiteral "ngo_projects.csv" data_projects df_projects;
    mkLiteral "beneficiary_data.csv" data_beneficiary_basic df_beneficiary_basic;
    mkLiteral "beneficiary_data_missing.csv" data_missing df_missing;
    mkLiteral "project_updates.csv" data_project_updates df_project_updates;
    mkLiteral "health_data.csv" data_health df_health;
    mkLiteral "messy_data.csv" data_messy df_messy;
    mkLiteral "item_data.csv" data_item df_item;
    mkLiteral "advanced_messy_data.csv" data_advanced_messy df_advanced_messy;
    mkLiteral "transaction_data.csv" data_transaction df_transaction;
    mkLiteral "ngo_projects_cleaned.csv" data_projects_cleaned df_projects_cleaned;
    mkLiteral "beneficiary_records.csv" data_beneficiary_records df_beneficiary_records;
    mkLiteral "aid_distribution.csv" data_aid_distribution df_aid_distribution;
    mkLiteral "beneficiary_data_dedup.csv" data_beneficiary_dedup df_beneficiary_dedup;
    mkLiteral "event_logs.csv" data_event_logs df_event_logs;
    mkLiteral "partner_organizations.csv" data_partners df_partners;
    mkLiteral "health_records.csv" data_health_records df_health_records;
    mkLiteral "school_data.csv" data_school df_school;
    mkLiteral "district_poverty.csv" data_poverty df_poverty ].

(** The text written for a literal table. *)
Definition text_of (t : option Pandas.DataFrame) : string :=
  Pandas.csv_text (default [] t).

(** The writes and the print of one run, given its two sampled tables. *)
Definition script_events (large country : Pandas.DataFrame) : list event :=
  [ Write "ngo_projects.csv" (text_of df_projects);
    Write "beneficiary_data.csv" (text_of df_beneficiary_basic);
    Write "large_ngo_projects.csv" (Pandas.csv_text large);
    Write "beneficiary_data_missing.csv" (text_of df_missing);
    Write "project_updates.csv" (text_of df_project_updates);
    Write "health_data.csv" (text_of df_health);
    Write "messy_data.csv" (text_of df_messy);
    Write "item_data.csv" (text_of df_item);
    Write "advanced_messy_data.csv" (text_of df_advanced_messy);
    Write "transaction_data.csv" (text_of df_transaction);
    Write "large_country_data.csv" (Pandas.csv_text country);
    Write "ngo_projects_cleaned.csv" (text_of df_projects_cleaned);
    Write "beneficiary_records.csv" (text_of df_beneficiary_records);
    Write "aid_distribution.csv" (text_of df_aid_distribution);
    Write "beneficiary_data_dedup.csv" (text_of df_beneficiary_dedup);
    Write "event_logs.csv" (text_of df_event_logs);
    Write "partner_organizations.csv" (text_of df_partners);
    Write "health_records.csv" (text_of df_health_records);
    Write "school_data.csv" (text_of df_school);
    Write "district_poverty.csv" (text_of df_poverty);
    Print success_message ].

(** ** The sampler's contract, and generators to run the script with

    What numpy promises of a bounded draw is its range.  [counter_draw] counts
    up and wraps at the bound; [top_draw] always returns the largest value
    allowed and [bottom_draw] the smallest. *)
Definition in_range {G : Type} (draw : G -> Z -> Z * G) : Prop :=
  forall g k, 0 < k -> 0 <= fst (draw g k) < k.

Definition always_top {G : Type} (draw : G -> Z -> Z * G) : Prop :=
  forall g k, fst (draw g k) = k - 1.
Definition always_bottom {G : Type} (draw : G -> Z -> Z * G) : Prop :=
  forall g k, fst (draw g k) = 0.

Definition counter_draw (g k : Z) : Z * Z := (g mod k, g + 1).

(** A generator that counts its draws and returns 0, except in its draws
    200001 to 300000, the ones [df_country] makes for the ReportDate column it
    replaces, where it returns [b]. *)
Definition skip_draw (b : Z) (g k : Z) : Z * Z :=
  (if (200000 <=? g) && (g <? 300000) then b else 0, g + 1).
Definition top_draw (g : unit) (k : Z) : Z * unit := (k - 1, tt).
Definition bottom_draw (g : unit) (k : Z) : Z * unit := (0, tt).

(** ** Statements about the tables *)

(** The header written for every file: the keys of its dictionary, in
    order. *)
Definition output_headers : list (list string) :=
  [ map fst data_projects; map fst data_beneficiary_basic;
    ["ProjectID"; "Region"; "Status"; "Budget"];
    map fst data_missing; map fst data_project_updates; map fst data_health;
    map fst data_messy; map fst data_item; map fst data_advanced_messy;
    map fst data_transaction;
    ["Country"; "EventDate"; "ReportDate"];
    map fst data_projects_cleaned; map fst data_beneficiary_records;
    map fst data_aid_distribution; map fst data_beneficiary_dedup;
    map fst data_event_logs; map fst data_partners; map fst data_health_records;
    map fst data_school; map fst data_poverty ].

(** A cell of a dictionary. *)
Fixpoint dict_get (d : list (string * list value)) (key : string) : option (list value) :=
  match d with
  | [] => None
  | (k, l) :: rest => if String.eqb k key then Some l else dict_get rest key
  end.

Definition dict_cell (d : list (string * list value)) (key : string) (i : nat) : option value :=
  l ← dict_get d key; l !! i.

(** Every row has a diagnosis and a medication field, and the medication
    of a "Flu" row is missing. *)
Definition flu_medication_missing (df : Pandas.DataFrame) : Prop :=
  forall i : nat, (i < Pandas.nrows df)%nat ->
    exists d m,
      Pandas.cell df "Diagnosis" i = Some d /\
      Pandas.cell df "Medication" i = Some m /\
      (d = VStr "Flu" -> m = VNaN).

(** The table a dictionary specifies, column by column.  A column of
    integers is an integer column with those integers.  A column of numbers
    that holds a float or a missing value is a float column, in which a
    specified integer stands for the equal float ([25] for [25.0]) and the
    missing values stay where they are.  Any other column, of strings with or
    without missing values, is kept value by value. *)
Definition specified_column (l : list value) : Pandas.Series :=
  if forallb Pandas.is_int l then Pandas.mkSeries Pandas.int64 l
  else if forallb Pandas.is_number l then
    Pandas.mkSeries Pandas.float64
      (map (fun v => match v with VInt n => VFloat n 0 | _ => v end) l)
  else Pandas.mkSeries Pandas.object l.

Definition specified (d : list (string * list value)) : Pandas.DataFrame :=
  map (fun kv => (fst kv, specified_column (snd kv))) d.

(** The file of a table, read back with the column types of the table. *)
Definition read_back (t : option Pandas.DataFrame) : option Pandas.DataFrame :=
  df ← t; ReadBack.read_csv (ReadBack.dtypes df) (Pandas.csv_text df).

(** The file of a literal table, read back with the column types its
    dictionary specifies. *)
Definition read_back_as_specified (t : literal_table) : option Pandas.DataFrame :=
  df ← frame t;
  ReadBack.read_csv (ReadBack.dtypes (specified (data t))) (Pandas.csv_text df).

Definition reads_back_as_specified (t : literal_table) : Prop :=
  read_back_as_specified t = Some (specified (data t)).

(** Every column that holds a missing value is written as numbers and
    empty fields only. *)
Definition missing_columns_numeric (df : Pandas.DataFrame) : Prop :=
  Forall (fun col : string * Pandas.Series =>
            VNaN ∈ Pandas.values (snd col) ->
            Forall (fun v => ReadBack.numeric_or_empty (Pandas.render v) = true)
                   (Pandas.values (snd col)))
         df.

Global Instance missing_columns_numeric_dec df : Decision (missing_columns_numeric df).
Proof. unfold missing_columns_numeric. apply _. Defined.

(** The frame of health_data by its dictionary: the other columns as
    specified, the medication missing on the "Flu" rows. *)
Definition without_medication {A : Type} (cols : list (string * A)) : list (string * A) :=
  List.filter (fun kv => negb (String.eqb (fst kv) "Medication")) cols.

Definition overridden_medication (d : list (string * list value)) : option (list value) :=
  diagnosis ← dict_get d "Diagnosis";
  medication ← dict_get d "Medication";
  Some (zip_with (fun dg m => if decide (dg = VStr "Flu") then VNaN else m)
                 diagnosis medication).

(** The dictionary a literal table is written from: its own, for
    health_data with the medication of the "Flu" rows missing. *)
Definition written_data (t : literal_table) : list (string * list value) :=
  if String.eqb (file t) "health_data.csv" then
    match overridden_medication (data t) with
    | Some medication =>
        map (fun kv => if String.eqb (fst kv) "Medication" then (fst kv, medication) else kv)
            (data t)
    | None => data t
    end
  else data t.

(** The field a specified value is written as.  A missing value is the
    empty field.  An integer of a column of integers is its decimal literal,
    whatever the other columns hold; an integer of a column that holds
    missing values is the literal of the equal float ([25.0]).  A float is a
    number and a string is itself, neither of them empty. *)
Definition field_written (integers : bool) (v : value) (f : string) : Prop :=
  match v with
  | VNaN => f = EmptyString
  | VInt n =>
      if integers then f = pretty n /\ ReadBack.parse_int f = Some n
      else f = pretty n +:+ ".0" /\ ReadBack.parse_float f = Some (VFloat n 0)
  | VFloat m e => ReadBack.parse_float f = Some v
  | VStr s => f = s /\ s <> EmptyString
  | VDate _ => False
  end.

Global Instance field_written_dec integers v f : Decision (field_written integers v f).
Proof. unfold field_written. destruct v, integers; apply _. Defined.

(** A column of a file written as its dictionary specifies it: every field
    as [field_written] says, empty for the missing values and for nothing
    else, and numbers and empty fields only in a column of numbers. *)
Definition column_written (l : list value) (fields : list string) : Prop :=
  Forall2 (fun v f =>
             field_written (forallb Pandas.is_int l) v f /\
             (f = EmptyString <-> v = VNaN) /\
             (forallb Pandas.is_number l = true -> ReadBack.numeric_or_empty f = true))
          l fields.

Global Instance column_written_dec l fields : Decision (column_written l fields).
Proof. unfold column_written. apply _. Defined.

(** A file written as a dictionary specifies it: its columns are the keys,
    in order, each written as specified. *)
Definition written_as_specified (d : list (string * list value)) (text : string) : Prop :=
  exists cols,
    ReadBack.read_text text = Some cols /\
    Forall2 (fun kv col => fst col = fst kv /\ column_written (snd kv) (snd col)) d cols.

(** The column that [.loc] puts in the place of [med] when it assigns
    [nan] under a mask. *)
Definition assigned (mask : list bool) (med : Pandas.Series) : Pandas.Series :=
  match Pandas.dtype_of med with
  | Pandas.object =>
      Pandas.mkSeries Pandas.object (Pandas.mask_assign mask VNaN (Pandas.values med))
  | _ => Pandas.make_series (Pandas.mask_assign mask VNaN (Pandas.values med))
  end.

(** A path without a directory part names a file of the working
    directory. *)
Definition in_working_directory (path : string) : bool :=
  negb (existsb (Ascii.eqb "/") (list_ascii_of_string path)).

(** The text last written to [path] by a sequence of events. *)
Fixpoint last_write (path : string) (evs : list event) : option string :=
  match evs with
  | [] => None
  | e :: rest =>
      match last_write path rest with
      | Some t => Some t
      | None =>
          match e with
          | Write p t => if String.eqb p path then Some t else None
          | Print _ => None
          end
      end
  end.

(** * Properties *)

(** ** The model on the script's own values *)
Example start_date_ordinal : start_date = 737425.
Proof. reflexivity. Qed.

Example days_between_start_and_end : end_date - start_date = 1460.
Proof. reflexivity. Qed.

Example isoformat_of_latest_report_date :
  Datetime.isoformat (Datetime.datetime 2024 1 28) = "2024-01-28".
Proof. vm_compute. reflexivity. Qed.

(** On every day a date column of the script can hold, the two
    conversions of [datetime] are inverse to each other. *)
Lemma ord2ymd_ymd2ord_on_range :
  Forall (fun n => let '(y, m, d) := Datetime._ord2ymd n in
                   Datetime._ymd2ord y m d = n)
         (map (fun x => start_date + x) (range (1460 + 29))).
Proof. apply (bool_decide_unpack _). vm_compute. exact I. Qed.

Example float_literal_0_10 : float_lit 10 2 = VFloat 1 1 /\ Pandas.render (float_lit 10 2) = "0.1".
Proof. split; vm_compute; reflexivity. Qed.

Example quoted_field_with_comma :
  Csv.quote_field "1,500"
  = String Csv.quotechar ("1,500" +:+ String Csv.quotechar EmptyString).
Proof. reflexivity. Qed.

(** A carriage return does not make the writer quote a field, and the
    reader takes it for the end of a row; inside a field that is quoted for
    another reason it is read back. *)
Example carriage_return_unquoted :
  Csv.writerows [[String "a" (String Csv.CR "b"); "c"]]
  = String "a" (String Csv.CR ("b,c" +:+ String Csv.LF EmptyString)) /\
  Csv.reader (Csv.writerows [[String "a" (String Csv.CR "b"); "c"]]) = [["a"]; ["b"; "c"]].
Proof. split; reflexivity. Qed.

Example carriage_return_quoted :
  Csv.reader (Csv.writerows [[String "a" (String Csv.CR ",b"); "c"]])
  = [[String "a" (String Csv.CR ",b"); "c"]].
Proof. reflexivity. Qed.

(** Beyond [2^53] an integer is rounded when it becomes a float. *)
Example float64_of_large_int :
  Pandas.float64_of_int 9007199254740993 = 9007199254740992 /\
  Pandas.float64_of_int 9007199254740995 = 9007199254740996 /\
  Pandas.float64_of_int (-250000) = -250000.
Proof. repeat split; reflexivity. Qed.

Example beneficiary_data_missing_text :
  text_of df_missing =
  "BeneficiaryID,Age,Gender,Location,AssistanceType
1,25.0,Female,Camp A,Food
2,34.0,Male,Village B,Shelter
3,,Female,Camp A,
4,45.0,Male,Village C,Food
5,19.0,Female,Camp B,Medical
6,,Male,Village B,Shelter
7,50.0,Female,Camp A,Food
".
Proof. vm_compute. reflexivity. Qed.

Example health_data_text :
  text_of df_health =
  "PatientID,Age,Weight,Diagnosis,Medication
1,30,70,Flu,
2,45,85,Malaria,B
3,22,60,Flu,
4,60,90,Typhoid,C
5,35,75,Flu,
6,50,80,Malaria,B
7,28,65,Flu,
8,42,78,Typhoid,C
9,55,88,Malaria,B
10,65,92,Flu,
".
Proof. vm_compute. reflexivity. Qed.


(** ** Strings *)
Lemma app_cons (c : ascii) (s t : string) : String c s +:+ t = String c (s +:+ t).
Proof. reflexivity. Qed.

Lemma app_empty_l (t : string) : EmptyString +:+ t = t.
Proof. reflexivity. Qed.

Lemma app_empty_r (s : string) : s +:+ EmptyString = s.
Proof. induction s as [|c s IH]; [reflexivity|]. rewrite app_cons, IH. reflexivity. Qed.

Lemma app_assoc_str (s t u : string) : (s +:+ t) +:+ u = s +:+ (t +:+ u).
Proof.
  induction s as [|c s IH]; [reflexivity|].
  rewrite !app_cons, IH. reflexivity.
Qed.

Lemma concat_empty_cons (x : string) (xs : list string) :
  String.concat "" (x :: xs) = x +:+ String.concat "" xs.
Proof.
  destruct xs as [|y ys]; simpl.
  - symmetry. apply app_empty_r.
  - reflexivity.
Qed.

(** ** The reader inverts the writer *)
Module CsvFacts.
Import Csv.

Lemma prepend_field f g r rs :
  prepend f ((g :: r) :: rs) = ((f +:+ g) :: r) :: rs.
Proof.
  induction f as [|c f IH]; [reflexivity|].
  simpl. rewrite IH. reflexivity.
Qed.

Lemma special_false c :
  special c = false ->
  (c =? delimiter)%char = false /\ (c =? quotechar)%char = false /\
  (c =? LF)%char = false.
Proof.
  unfold special. intros H.
  repeat (apply orb_false_iff in H as [H ?]). auto.
Qed.

Lemma no_CR_cons c s :
  no_CR (String c s) = true -> (c =? CR)%char = false /\ no_CR s = true.
Proof.
  cbn [no_CR]. intros H. apply andb_true_iff in H as [Hc Hs].
  apply negb_true_iff in Hc. auto.
Qed.

Lemma no_CR_app s t : no_CR (s +:+ t) = no_CR s && no_CR t.
Proof.
  induction s as [|c s IH]; [reflexivity|].
  rewrite app_cons. cbn [no_CR]. rewrite IH. apply andb_assoc.
Qed.

Lemma ends_field_not_quote c :
  ends_field c = true -> (c =? quotechar)%char = false /\ (c =? CR)%char = false.
Proof.
  unfold ends_field. intros H. apply orb_true_iff in H as [H|H];
    apply Ascii.eqb_eq in H; subst; split; reflexivity.
Qed.

Lemma parse_after_field st c s :
  ends_field c = true ->
  st = StartField \/ st = InField \/ st = QuoteInQuoted ->
  parse st (String c s) = parse InField (String c s).
Proof.
  intros Hc Hst. destruct (ends_field_not_quote c Hc) as [Hq Hr].
  destruct Hst as [->|[->| ->]]; cbn [parse]; rewrite ?Hq, ?Hr; reflexivity.
Qed.

Lemma parse_unquoted f s :
  needs_quote f = false -> no_CR f = true ->
  parse InField (f +:+ s) = prepend f (parse InField s).
Proof.
  induction f as [|c f IH]; intros H Hcr; [reflexivity|].
  cbn [needs_quote] in H. apply orb_false_iff in H as [Hc Hf].
  apply special_false in Hc as (Hd & _ & Hl).
  apply no_CR_cons in Hcr as [Hr Hcr].
  rewrite app_cons. cbn [parse prepend]. rewrite Hl, Hr, Hd, IH by assumption.
  reflexivity.
Qed.

Lemma parse_quoted f s :
  parse InQuoted (double_quotes f +:+ String quotechar s)
  = prepend f (parse QuoteInQuoted s).
Proof.
  induction f as [|c f IH].
  - reflexivity.
  - cbn [double_quotes prepend]. destruct (c =? quotechar)%char eqn:Hq.
    + rewrite !app_cons. cbn [parse]. rewrite Hq, IH. reflexivity.
    + rewrite app_cons. cbn [parse]. rewrite Hq, IH. reflexivity.
Qed.

(** A written field followed by a delimiter or a line end is read back as
    the field. *)
Lemma parse_quote_field f c s :
  no_CR f = true ->
  ends_field c = true ->
  parse StartField (quote_field f +:+ String c s)
  = prepend f (parse InField (String c s)).
Proof.
  intros Hcr Hc. unfold quote_field. destruct (needs_quote f) eqn:Hn.
  - rewrite app_cons.
    change (parse StartField (String quotechar ?x)) with (parse InQuoted x).
    rewrite app_assoc_str, app_cons, app_empty_l, parse_quoted.
    f_equal. apply parse_after_field; auto.
  - destruct f as [|x f].
    + rewrite app_empty_l. apply parse_after_field; auto.
    + cbn [needs_quote] in Hn. apply orb_false_iff in Hn as [Hx Hf].
      apply special_false in Hx as (Hd & Hq & Hl).
      apply no_CR_cons in Hcr as [Hr Hcr].
      rewrite app_cons. cbn [parse prepend]. rewrite Hl, Hr, Hq, Hd.
      rewrite parse_unquoted by assumption. reflexivity.
Qed.

Lemma join_fields_app fields tail rest :
  join_fields fields tail +:+ rest = join_fields fields (tail +:+ rest).
Proof.
  induction fields as [|f fs IH]; [reflexivity|].
  destruct fs as [|g gs].
  - simpl. apply app_assoc_str.
  - change (join_fields (f :: g :: gs) tail)
      with (quote_field f +:+ String delimiter (join_fields (g :: gs) tail)).
    change (join_fields (f :: g :: gs) (tail +:+ rest))
      with (quote_field f +:+ String delimiter (join_fields (g :: gs) (tail +:+ rest))).
    rewrite app_assoc_str, app_cons, IH. reflexivity.
Qed.

Lemma parse_join_fields fields rest :
  fields <> [] ->
  Forall (fun f => no_CR f = true) fields ->
  parse StartField (join_fields fields (String LF rest))
  = fields :: parse StartRecord rest.
Proof.
  induction fields as [|f fs IH]; intros Hne Hcr; [congruence|].
  apply Forall_cons in Hcr as [Hf Hcr].
  destruct fs as [|g gs].
  - cbn [join_fields]. rewrite parse_quote_field by (assumption || reflexivity).
    cbn [parse]. change (LF =? LF)%char with true. cbv iota.
    unfold end_row. rewrite prepend_field, app_empty_r. reflexivity.
  - change (join_fields (f :: g :: gs) (String LF rest))
      with (quote_field f +:+ String delimiter (join_fields (g :: gs) (String LF rest))).
    rewrite parse_quote_field by (assumption || reflexivity).
    cbn [parse]. change (delimiter =? LF)%char with false.
    change (delimiter =? CR)%char with false.
    change (delimiter =? delimiter)%char with true. cbv iota.
    rewrite IH by (congruence || assumption).
    cbn [end_field]. rewrite prepend_field, app_empty_r. reflexivity.
Qed.

Lemma parse_start_record c s :
  (c =? LF)%char = false -> (c =? CR)%char = false ->
  parse StartRecord (String c s) = parse StartField (String c s).
Proof. intros H Hr. cbn [parse]. rewrite H, Hr. reflexivity. Qed.

Lemma quote_field_head f :
  no_CR f = true ->
  match quote_field f with
  | EmptyString => f = EmptyString
  | String c _ => (c =? LF)%char = false /\ (c =? CR)%char = false
  end.
Proof.
  intros Hcr. unfold quote_field.
  destruct (needs_quote f) eqn:Hn; [split; reflexivity|].
  destruct f as [|c f]; [reflexivity|].
  simpl in Hn. apply orb_false_iff in Hn as [Hc _].
  apply special_false in Hc. apply no_CR_cons in Hcr. tauto.
Qed.

Lemma parse_writerow row rest :
  row <> [] ->
  Forall (fun f => no_CR f = true) row ->
  parse StartRecord (writerow row +:+ rest) = row :: parse StartRecord rest.
Proof.
  intros Hne Hcr. destruct row as [|f fs]; [congruence|].
  destruct (decide (f :: fs = [EmptyString])) as [->|Hrow].
  - reflexivity.
  - assert (writerow (f :: fs) = join_fields (f :: fs) (String LF EmptyString)) as ->.
    { destruct f; [destruct fs; [congruence|]|]; reflexivity. }
    rewrite join_fields_app, app_cons, app_empty_l.
    rewrite <- parse_join_fields by assumption.
    pose proof (quote_field_head f (Forall_inv Hcr)) as Hh.
    destruct fs as [|g gs].
    + cbn [join_fields]. destruct (quote_field f) as [|c q] eqn:Hq.
      * subst f. congruence.
      * rewrite app_cons. apply parse_start_record; apply Hh.
    + change (join_fields (f :: g :: gs) (String LF rest))
        with (quote_field f +:+ String delimiter (join_fields (g :: gs) (String LF rest))).
      destruct (quote_field f) as [|c q].
      * rewrite app_empty_l. apply parse_start_record; reflexivity.
      * rewrite app_cons. apply parse_start_record; apply Hh.
Qed.

(** Rows that have a field each and no carriage return in any field are
    read back as they were written. *)
Lemma reader_writerows rows :
  Forall (fun row => row <> []) rows ->
  Forall (Forall (fun f => no_CR f = true)) rows ->
  reader (writerows rows) = rows.
Proof.
  unfold reader, writerows. induction 1 as [|row rows Hrow _ IH]; intros Hcr;
    [reflexivity|].
  apply Forall_cons in Hcr as [Hr Hcr].
  rewrite map_cons, concat_empty_cons, parse_writerow, IH by assumption.
  reflexivity.
Qed.

End CsvFacts.

(** ** The texts of integers and dates *)
Module IntegerFacts.
Import ReadBack.

Lemma digit_pretty_N_char (x : N) :
  (x < 10)%N -> digit (pretty_N_char x) = Some (Z.of_N x).
Proof.
  intros H.
  assert (x = 0 \/ x = 1 \/ x = 2 \/ x = 3 \/ x = 4 \/ x = 5 \/ x = 6 \/ x = 7
          \/ x = 8 \/ x = 9)%N as Hx by lia.
  repeat (destruct Hx as [->|Hx]; [reflexivity|]). subst x. reflexivity.
Qed.

(** Reading the digits that are put before [s], from 0, is reading [s]
    from their number. *)
Lemma digits_pretty_N_go (x : N) (s : string) :
  digits 0 (pretty_N_go x s) = digits (Z.of_N x) s.
Proof.
  revert s. induction (N.lt_wf_0 x) as [x _ IH]. intros s.
  destruct (N.eq_dec x 0%N) as [->|Hx]; [rewrite pretty_N_go_0; reflexivity|].
  rewrite pretty_N_go_step by lia.
  rewrite IH by (apply N.div_lt; lia).
  cbn [digits]. rewrite digit_pretty_N_char by (apply N.mod_lt; lia).
  cbn [mbind option_bind]. f_equal.
  pose proof (N.div_mod x 10%N ltac:(lia)) as Hdm. lia.
Qed.

Lemma parse_nat_pretty_N (x : N) : parse_nat (pretty x) = Some (Z.of_N x).
Proof.
  unfold pretty, pretty_N. destruct (decide (x = 0%N)) as [->|Hx]; [reflexivity|].
  pose proof (digits_pretty_N_go x EmptyString) as H. cbn [digits] in H.
  destruct (pretty_N_go x EmptyString) as [|c r] eqn:E.
  - cbn in H. injection H as H. lia.
  - exact H.
Qed.

Lemma parse_int_no_sign c r :
  c <> "-"%char -> parse_int (String c r) = parse_nat (String c r).
Proof.
  intros Hc. destruct c as [[] [] [] [] [] [] [] []]; try reflexivity.
  congruence.
Qed.

Lemma parse_int_pretty (z : Z) : parse_int (pretty z) = Some z.
Proof.
  destruct z as [|p|p]; [reflexivity| |].
  - change (pretty (Z.pos p)) with (pretty (N.pos p)).
    pose proof (parse_nat_pretty_N (N.pos p)) as H.
    destruct (pretty (N.pos p)) as [|c r] eqn:E; [discriminate H|].
    rewrite parse_int_no_sign; [exact H|].
    intros ->. unfold pretty, pretty_N in E.
    destruct (decide (N.pos p = 0%N)); [discriminate|].
    exact (pretty_N_go_ne_dash (N.pos p) EmptyString r ltac:(discriminate) E).
  - change (pretty (Z.neg p)) with ("-" +:+ pretty (N.pos p)).
    change (parse_int ("-" +:+ pretty (N.pos p)))
      with (Z.opp <$> parse_nat (pretty (N.pos p))).
    rewrite parse_nat_pretty_N. reflexivity.
Qed.

End IntegerFacts.

(** No text written for an integer or a date holds a carriage return. *)
Module TextFacts.
Import Csv ReadBack.

Lemma digit_not_CR c d : digit c = Some d -> (c =? CR)%char = false.
Proof.
  intros H. destruct (Ascii.eqb_spec c CR) as [->|]; [discriminate H|reflexivity].
Qed.

Lemma digits_no_CR s acc z : digits acc s = Some z -> no_CR s = true.
Proof.
  revert acc. induction s as [|c s IH]; intros acc H; [reflexivity|].
  cbn [digits] in H. destruct (digit c) as [d|] eqn:Hd; [|discriminate H].
  cbn [mbind option_bind] in H. cbn [no_CR].
  rewrite (digit_not_CR c d Hd), (IH _ H). reflexivity.
Qed.

Lemma parse_nat_no_CR s z : parse_nat s = Some z -> no_CR s = true.
Proof. destruct s; [discriminate|]. apply digits_no_CR. Qed.

Lemma parse_int_no_CR s z : parse_int s = Some z -> no_CR s = true.
Proof.
  destruct s as [|c r]; [discriminate|].
  destruct (decide (c = "-"%char)) as [->|Hc].
  - change (parse_int (String "-" r)) with (Z.opp <$> parse_nat r).
    destruct (parse_nat r) as [n|] eqn:E; [|discriminate].
    intros _. cbn [no_CR]. rewrite (parse_nat_no_CR r n E). reflexivity.
  - rewrite IntegerFacts.parse_int_no_sign by exact Hc. apply parse_nat_no_CR.
Qed.

Lemma pretty_no_CR (z : Z) : no_CR (pretty z) = true.
Proof. exact (parse_int_no_CR _ z (IntegerFacts.parse_int_pretty z)). Qed.

Lemma pretty_nonempty (z : Z) : pretty z <> EmptyString.
Proof.
  intros E. pose proof (IntegerFacts.parse_int_pretty z) as H.
  rewrite E in H. discriminate H.
Qed.

Lemma zeros_no_CR (k : nat) : no_CR (String.concat "" (repeat "0" k)) = true.
Proof.
  induction k as [|k IH]; [reflexivity|].
  cbn [repeat]. rewrite concat_empty_cons, CsvFacts.no_CR_app, IH. reflexivity.
Qed.

Lemma zfill_no_CR (w : nat) (s : string) :
  no_CR s = true -> no_CR (Datetime.zfill w s) = true.
Proof.
  intros H. unfold Datetime.zfill. rewrite CsvFacts.no_CR_app, zeros_no_CR, H.
  reflexivity.
Qed.

Lemma isoformat_no_CR (o : Z) : no_CR (Datetime.isoformat o) = true.
Proof.
  unfold Datetime.isoformat. destruct (Datetime._ord2ymd o) as [[y m] d].
  rewrite !CsvFacts.no_CR_app, !zfill_no_CR by apply pretty_no_CR. reflexivity.
Qed.

Lemma app_nonempty_r (s t : string) : t <> EmptyString -> s +:+ t <> EmptyString.
Proof. intros Ht E. destruct s; [exact (Ht E)|discriminate E]. Qed.

Lemma isoformat_nonempty (o : Z) : Datetime.isoformat o <> EmptyString.
Proof.
  unfold Datetime.isoformat. destruct (Datetime._ord2ymd o) as [[y m] d].
  apply app_nonempty_r. discriminate.
Qed.

Lemma ints_no_CR (l : list Z) :
  Forall (fun v => no_CR (Pandas.render v) = true) (ints l).
Proof. apply Forall_map, Forall_forall. intros n _. apply pretty_no_CR. Qed.

Lemma dates_no_CR (l : list Z) :
  Forall (fun v => no_CR (Pandas.render v) = true) (map VDate l).
Proof. apply Forall_map, Forall_forall. intros o _. apply isoformat_no_CR. Qed.

Lemma strs_no_CR (vocabulary l : list string) :
  Forall (fun s => no_CR s = true) vocabulary ->
  Forall (fun s => In s vocabulary) l ->
  Forall (fun v => no_CR (Pandas.render v) = true) (strs l).
Proof.
  intros Hv Hl. apply Forall_map. eapply Forall_impl; [exact Hl|].
  cbn. intros s Hs. rewrite Forall_forall in Hv. apply Hv, list_elem_of_In, Hs.
Qed.

End TextFacts.

(** ** What [to_csv] writes, for any frame *)
Module WriterFacts.
Import Pandas.

Lemma row_length df i : length (row df i) = length df.
Proof. unfold row. rewrite length_map. reflexivity. Qed.

(** Every written row has one field for every column, and there is no
    other field: the index is not written. *)
Lemma csv_rows_shape df :
  Forall (fun r => length r = length (columns df)) (csv_rows df).
Proof.
  unfold csv_rows, columns, rows. constructor; [reflexivity|].
  apply Forall_map, Forall_map, Forall_forall. intros i _.
  cbn. rewrite !length_map. apply row_length.
Qed.

Lemma csv_rows_nonempty df :
  df <> [] -> Forall (fun r => r <> []) (csv_rows df).
Proof.
  intros Hdf. eapply Forall_impl; [apply csv_rows_shape|].
  cbn. intros r Hr ->. unfold columns in Hr. rewrite length_map in Hr.
  destruct df; [congruence|discriminate Hr].
Qed.

(** A property of the text of every value of a frame, and of the empty
    field, is one of every field under the header. *)
Lemma body_fields (P : string -> Prop) df :
  P EmptyString ->
  Forall (fun col => Forall (fun v => P (render v)) (values (snd col))) df ->
  Forall (Forall P) (map (map render) (rows df)).
Proof.
  intros Hempty Hcells. apply Forall_map, Forall_map, Forall_forall. intros i _.
  cbn. unfold row. apply Forall_map, Forall_map.
  eapply Forall_impl; [exact Hcells|]. cbn. intros [name s] Hs. cbn [snd] in *.
  destruct (nth_in_or_default i (values s) VNaN) as [Hin| ->]; [|exact Hempty].
  rewrite Forall_forall in Hs. apply Hs, list_elem_of_In, Hin.
Qed.

(** The same without the empty field, for a frame all of whose columns
    are as long as the first. *)
Lemma body_fields_full (P : string -> Prop) df :
  Forall (fun col => length (values (snd col)) = nrows df) df ->
  Forall (fun col => Forall (fun v => P (render v)) (values (snd col))) df ->
  Forall (Forall P) (map (map render) (rows df)).
Proof.
  intros Hlen Hcells. apply Forall_map, Forall_map, Forall_forall. intros i Hi.
  apply list_elem_of_In, in_seq in Hi.
  cbn. unfold row. apply Forall_map, Forall_map.
  rewrite Forall_forall in Hlen, Hcells. apply Forall_forall. intros [name s] Hs.
  specialize (Hlen _ Hs). specialize (Hcells _ Hs). cbn [snd] in *.
  rewrite Forall_forall in Hcells. apply Hcells, list_elem_of_In, nth_In. lia.
Qed.

Lemma csv_rows_no_CR df :
  Forall (fun c => Csv.no_CR c = true) (columns df) ->
  Forall (fun col => Forall (fun v => Csv.no_CR (render v) = true) (values (snd col))) df ->
  Forall (Forall (fun f => Csv.no_CR f = true)) (csv_rows df).
Proof.
  intros Hcols Hcells. unfold csv_rows. apply Forall_cons. split; [exact Hcols|].
  apply (body_fields (fun f => Csv.no_CR f = true)); [reflexivity|exact Hcells].
Qed.

(** Reading the text of a frame gives back the rows that were written,
    when no column name and no cell text holds a carriage return. *)
Lemma reader_csv_text df :
  df <> [] ->
  Forall (Forall (fun f => Csv.no_CR f = true)) (csv_rows df) ->
  Csv.reader (csv_text df) = csv_rows df.
Proof.
  intros Hdf Hcr. unfold csv_text.
  apply CsvFacts.reader_writerows; [apply csv_rows_nonempty, Hdf|exact Hcr].
Qed.

Lemma csv_rows_length df : length (csv_rows df) = S (nrows df).
Proof. unfold csv_rows, rows. cbn [length]. rewrite !length_map, length_seq. reflexivity. Qed.

(** The field written for a cell is the text of its value. *)
Lemma csv_field df (i j : nat) col s v :
  df !! j = Some (col, s) -> values s !! i = Some v -> (i < nrows df)%nat ->
  csv_rows df !! S i ≫= (fun r => r !! j) = Some (render v).
Proof.
  unfold DataFrame in *.
  intros Hj Hv Hi. unfold csv_rows, rows. cbn [lookup list_lookup].
  change (map (map render) (map (row df) (seq 0 (nrows df))) !! i
          ≫= (fun r => r !! j) = Some (render v)).
  rewrite !list_lookup_fmap, lookup_seq_lt by exact Hi.
  cbn [fmap option_fmap option_map mbind option_bind Nat.add].
  unfold row. rewrite !list_lookup_fmap, Hj. cbn.
  do 2 f_equal. apply nth_lookup_Some with (d := VNaN) in Hv. exact Hv.
Qed.

Lemma files_after_lookup evs fs path :
  files_after evs fs !! path
  = match last_write path evs with
    | Some t => Some t
    | None => fs !! path
    end.
Proof.
  revert fs. induction evs as [|e evs IH]; intros fs; [reflexivity|].
  change (files_after (e :: evs) fs) with (files_after evs (apply_event fs e)).
  rewrite IH. cbn [last_write].
  destruct (last_write path evs); [reflexivity|].
  destruct e as [p t|l]; cbn [apply_event]; [|reflexivity].
  destruct (String.eqb_spec p path) as [->|Hne].
  - apply lookup_insert_eq.
  - apply lookup_insert_ne. exact Hne.
Qed.

Lemma files_after_dom evs fs :
  dom (files_after evs fs) = dom fs ∪ list_to_set (map fst (written evs)).
Proof.
  revert fs. induction evs as [|e evs IH]; intros fs.
  - cbn. symmetry. apply (right_id_L ∅ (∪)).
  - change (files_after (e :: evs) fs) with (files_after evs (apply_event fs e)).
    rewrite IH. destruct e as [p t|l]; cbn.
    + rewrite dom_insert_L, (comm_L (∪) {[p]}), <- (assoc_L (∪)). reflexivity.
    + reflexivity.
Qed.

End WriterFacts.

(** ** A run of the script *)
Lemma literal_tables_built :
  Forall (fun t => frame t = Some (default [] (frame t))) literal_tables.
Proof. repeat constructor. Qed.

Section Run.
Context {G : Type} (draw : G -> Z -> Z * G).

Lemma bind_lift_built {S A B : Type} (o : option A) (d : A) (k : A -> ST S B) (s : S) :
  o = Some d -> bind (lift o) k s = k d s.
Proof. intros ->. reflexivity. Qed.

Lemma bind_to_csv {B : Type} (df : Pandas.DataFrame) (path : string)
    (k : unit -> ST (world G) B) (w : world G) :
  bind (to_csv df path) k w
  = k tt (mkWorld (rng w) (events w ++ [Write path (Pandas.csv_text df)])).
Proof. reflexivity. Qed.

Lemma bind_sampling {A B : Type} (m : ST G A) (k : A -> ST (world G) B) (w : world G) :
  bind (sampling m) k w
  = match m (rng w) with
    | Some (a, g) => k a (mkWorld g (events w))
    | None => None
    end.
Proof. unfold bind, sampling. destruct (m (rng w)) as [[a g]|]; reflexivity. Qed.

Lemma generate_ngo_data_run (w : world G) :
  generate_ngo_data draw w =
  match df_large_sample draw (rng w) with
  | Some (large, g1) =>
      match df_country draw g1 with
      | Some (country, g2) =>
          Some (tt, mkWorld g2 (events w ++ script_events large country))
      | None => None
      end
  | None => None
  end.
Proof.
  pose proof literal_tables_built as H.
  unfold literal_tables in H.
  repeat (apply Forall_cons in H as [? H]). clear H.
  cbn [frame] in *.
  unfold generate_ngo_data.
  repeat (first [ erewrite bind_lift_built by eassumption
                | rewrite bind_to_csv ]; cbn [rng events]).
  rewrite bind_sampling. cbn [rng events].
  destruct (df_large_sample draw (rng w)) as [[large g1]|]; [|reflexivity].
  repeat (first [ erewrite bind_lift_built by eassumption
                | rewrite bind_to_csv ]; cbn [rng events]).
  rewrite bind_sampling. cbn [rng events].
  destruct (df_country draw g1) as [[country g2]|]; [|reflexivity].
  repeat (first [ erewrite bind_lift_built by eassumption
                | rewrite bind_to_csv ]; cbn [rng events]).
  unfold print. cbn [rng events].
  rewrite <- !app_assoc. reflexivity.
Qed.
End Run.

(** ** Sampling *)
Section SamplingFacts.
Context {G : Type} (draw : G -> Z -> Z * G).

Lemma draws_length n k g : length (fst (draws draw n k g)) = n.
Proof.
  revert g. induction n as [|n IH]; intros g; [reflexivity|].
  cbn [draws]. destruct (draw g k) as [x g1].
  specialize (IH g1). destruct (draws draw n k g1) as [xs g2].
  cbn in *. congruence.
Qed.

Lemma draws_in_range n k g :
  in_range draw -> 0 < k ->
  Forall (fun x => 0 <= x < k) (fst (draws draw n k g)).
Proof.
  intros Hr Hk. revert g. induction n as [|n IH]; intros g; [constructor|].
  cbn [draws]. pose proof (Hr g k Hk) as Hx.
  destruct (draw g k) as [x g1].
  specialize (IH g1). destruct (draws draw n k g1) as [xs g2].
  cbn in *. constructor; assumption.
Qed.

Lemma np_random_randint_run low high size g :
  low < high ->
  np_random_randint draw low high size g
  = Some (map (fun x => low + x) (fst (draws draw size (high - low) g)),
          snd (draws draw size (high - low) g)).
Proof.
  intros H. unfold np_random_randint.
  destruct (Z.ltb_spec low high); [|lia].
  destruct (draws draw size (high - low) g); reflexivity.
Qed.

Lemma np_random_choice_run {A : Type} (d : A) (a : list A) size g :
  np_random_choice draw (d :: a) size g
  = Some (map (fun x => nth (Z.to_nat x) (d :: a) d)
              (fst (draws draw size (Z.of_nat (length (d :: a))) g)),
          snd (draws draw size (Z.of_nat (length (d :: a))) g)).
Proof.
  unfold np_random_choice.
  destruct (draws draw size (Z.of_nat (length (d :: a))) g); reflexivity.
Qed.

(** Whatever index is drawn, [choice] returns an element of its list. *)
Lemma choice_elements {A : Type} (d : A) (a : list A) (xs : list Z) :
  Forall (fun y => In y (d :: a)) (map (fun x => nth (Z.to_nat x) (d :: a) d) xs).
Proof.
  apply Forall_forall. intros y Hy. apply list_elem_of_In in Hy.
  apply in_map_iff in Hy as (x & <- & _).
  destruct (Nat.lt_ge_cases (Z.to_nat x) (length (d :: a))) as [Hlt|Hge].
  - apply nth_In. assumption.
  - rewrite nth_overflow by assumption. left. reflexivity.
Qed.

End SamplingFacts.

(** ** Frames *)
Module PandasFacts.
Import Pandas.

Lemma make_series_ints l : l <> [] -> make_series (ints l) = mkSeries int64 (ints l).
Proof.
  intros Hl. unfold make_series, infer_dtype.
  assert (forallb is_int (ints l) = true) as Hi.
  { apply forallb_forall. intros v Hv. apply in_map_iff in Hv as (n & <- & _).
    reflexivity. }
  rewrite Hi. destruct l; [congruence|reflexivity].
Qed.

Lemma make_series_strs l : l <> [] -> make_series (strs l) = mkSeries object (strs l).
Proof.
  intros Hl. destruct l as [|s l]; [congruence|]. reflexivity.
Qed.

Lemma make_series_dates l :
  l <> [] -> make_series (map VDate l) = mkSeries datetime64 (map VDate l).
Proof.
  intros Hl. unfold make_series, infer_dtype.
  assert (forallb is_date (map VDate l) = true) as Hd.
  { apply forallb_forall. intros v Hv. apply in_map_iff in Hv as (n & <- & _).
    reflexivity. }
  rewrite Hd. destruct l; [congruence|reflexivity].
Qed.

Lemma add_days_dates (event offsets : list Z) :
  length event = length offsets ->
  add_days (mkSeries datetime64 (map VDate event)) offsets
  = Some (mkSeries datetime64 (map VDate (zip_with Z.add event offsets))).
Proof.
  intros Hlen. unfold add_days. cbn [dtype_of values].
  rewrite length_map, Hlen, Nat.eqb_refl. do 2 f_equal.
  clear Hlen. revert offsets. induction event as [|e event IH]; intros [|o offsets];
    try reflexivity.
  cbn. f_equal. apply IH.
Qed.

Lemma getitem_setitem df col s : getitem (setitem df col s) col = Some s.
Proof.
  induction df as [|[k old] df IH]; cbn.
  - rewrite String.eqb_refl. reflexivity.
  - destruct (String.eqb k col) eqn:E; cbn; rewrite E; [reflexivity|assumption].
Qed.

Lemma getitem_setitem_ne df col col' s :
  col <> col' -> getitem (setitem df col s) col' = getitem df col'.
Proof.
  intros Hne. induction df as [|[k old] df IH]; cbn.
  - destruct (String.eqb_spec col col'); [congruence|reflexivity].
  - destruct (String.eqb_spec k col) as [->|Hk]; cbn.
    + destruct (String.eqb_spec col col'); [congruence|reflexivity].
    + destruct (String.eqb k col'); [reflexivity|assumption].
Qed.

End PandasFacts.

(** ** The two sampled tables *)
Lemma nonempty_of_length {A : Type} (l : list A) (n : nat) :
  length l = n -> (0 < n)%nat -> l <> [].
Proof. intros <- H ->. cbn in H. lia. Qed.

Lemma np_arange_length start stop : length (np_arange start stop) = Z.to_nat (stop - start).
Proof. unfold np_arange. rewrite length_map, length_seq. reflexivity. Qed.

Lemma np_arange_lookup start stop (i : nat) :
  (i < Z.to_nat (stop - start))%nat ->
  np_arange start stop !! i = Some (start + Z.of_nat i).
Proof.
  intros Hi. unfold np_arange. rewrite list_lookup_fmap, lookup_seq_lt by assumption.
  reflexivity.
Qed.

Lemma date_range_length : length date_range = 1460%nat.
Proof. reflexivity. Qed.

Section Tables.
Context {G : Type} (draw : G -> Z -> Z * G).

Lemma np_random_choice_hd {A : Type} (a : list A) (d0 : A) size g :
  a <> [] ->
  np_random_choice draw a size g
  = Some (map (fun x => nth (Z.to_nat x) a (hd d0 a))
              (fst (draws draw size (Z.of_nat (length a)) g)),
          snd (draws draw size (Z.of_nat (length a)) g)).
Proof.
  intros Ha. destruct a as [|d a]; [congruence|].
  apply np_random_choice_run.
Qed.

Lemma choice_hd_elements {A : Type} (a : list A) (d0 : A) (xs : list Z) :
  a <> [] ->
  Forall (fun y => In y a) (map (fun x => nth (Z.to_nat x) a (hd d0 a)) xs).
Proof.
  intros Ha. destruct a as [|d a]; [congruence|]. apply choice_elements.
Qed.

(** The frame of [df_large_sample], column by column. *)
Lemma df_large_sample_run g :
  exists region status budget g',
    df_large_sample draw g
    = Some ([ ("ProjectID", Pandas.mkSeries Pandas.int64
                              (ints (np_arange 1 (num_rows_large + 1))));
              ("Region", Pandas.mkSeries Pandas.object (strs region));
              ("Status", Pandas.mkSeries Pandas.object (strs status));
              ("Budget", Pandas.mkSeries Pandas.int64 (ints budget)) ], g')
    /\ length region = Z.to_nat num_rows_large
    /\ length status = Z.to_nat num_rows_large
    /\ length budget = Z.to_nat num_rows_large
    /\ Forall (fun r => In r ["East Africa"; "South Asia"; "West Africa"; "Latin America"]) region
    /\ Forall (fun s => In s ["Active"; "Completed"; "Pending"]) status
    /\ (in_range draw -> Forall (fun b => 50000 <= b < 500000) budget).
Proof.
  unfold df_large_sample. cbv zeta.
  assert (length (np_arange 1 (num_rows_large + 1)) = Z.to_nat num_rows_large) as Hid.
  { rewrite np_arange_length. lia. }
  assert (0 < Z.to_nat num_rows_large)%nat as Hpos by (unfold num_rows_large; lia).
  revert Hid Hpos. generalize (np_arange 1 (num_rows_large + 1)) as ids.
  generalize (Z.to_nat num_rows_large) as n. intros n ids Hid Hpos.
  unfold bind.
  rewrite (np_random_choice_hd _ EmptyString) by discriminate.
  set (r := draws draw n _ g).
  pose proof (draws_length draw n (Z.of_nat (length ["East Africa"; "South Asia"; "West Africa"; "Latin America"])) g) as Hr.
  fold r in Hr.
  rewrite (np_random_choice_hd _ EmptyString) by discriminate.
  set (s := draws draw n _ (snd r)).
  pose proof (draws_length draw n (Z.of_nat (length ["Active"; "Completed"; "Pending"])) (snd r)) as Hs.
  fold s in Hs.
  rewrite np_random_randint_run by lia.
  set (b := draws draw n (500000 - 50000) (snd s)).
  pose proof (draws_length draw n (500000 - 50000) (snd s)) as Hb. fold b in Hb.
  eexists _, _, _, (snd b).
  split; [|split; [|split; [|split; [|split; [|split]]]]].
  - unfold lift, Pandas.pd_DataFrame, Pandas.same_length.
    cbn [forallb snd fst map]. unfold ints, strs.
    rewrite !length_map, Hid, Hr, Hs, Hb, Nat.eqb_refl. cbn [andb].
    fold (ints ids). fold (strs (map (fun x => nth (Z.to_nat x) ["East Africa"; "South Asia"; "West Africa"; "Latin America"] (hd EmptyString ["East Africa"; "South Asia"; "West Africa"; "Latin America"])) (fst r))).
    fold (strs (map (fun x => nth (Z.to_nat x) ["Active"; "Completed"; "Pending"] (hd EmptyString ["Active"; "Completed"; "Pending"])) (fst s))).
    fold (ints (map (fun x => 50000 + x) (fst b))).
    rewrite !PandasFacts.make_series_ints, !PandasFacts.make_series_strs;
      try (eapply nonempty_of_length; [|exact Hpos]; rewrite ?length_map; eassumption).
    reflexivity.
  - rewrite length_map. exact Hr.
  - rewrite length_map. exact Hs.
  - rewrite length_map. exact Hb.
  - apply choice_hd_elements. discriminate.
  - apply choice_hd_elements. discriminate.
  - intros Hin. apply Forall_map.
    eapply Forall_impl; [apply (draws_in_range draw n (500000 - 50000) (snd s) Hin); lia|].
    cbn. intros x Hx. lia.
Qed.

End Tables.

Section CountryTable.
Context {G : Type} (draw : G -> Z -> Z * G).

Lemma df_country_run g :
  let country := map (fun x => nth (Z.to_nat x) countries (hd EmptyString countries))
                     (fst (country_draws draw g)) in
  let event := map (fun x => nth (Z.to_nat x) date_range (hd 0 date_range))
                   (fst (event_draws draw g)) in
  let offsets := map (fun x => 1 + x) (fst (offset_draws draw g)) in
  df_country draw g
  = Some ([ ("Country", Pandas.mkSeries Pandas.object (strs country));
            ("EventDate", Pandas.mkSeries Pandas.datetime64 (map VDate event));
            ("ReportDate", Pandas.mkSeries Pandas.datetime64
                             (map VDate (zip_with Z.add event offsets))) ],
          snd (offset_draws draw g)).
Proof.
  intros country event offsets.
  unfold df_country. cbv zeta.
  unfold offset_draws, report_draws, event_draws, country_draws in *.
  assert (0 < Z.to_nat num_rows_country)%nat as Hpos
    by (unfold num_rows_country; lia).
  revert country event offsets Hpos.
  generalize (Z.to_nat num_rows_country) as size. intros size.
  set (cd := draws draw size (Z.of_nat (length countries)) g).
  set (ed := draws draw size (Z.of_nat (length date_range)) (snd cd)).
  set (rd := draws draw size (Z.of_nat (length date_range)) (snd ed)).
  set (od := draws draw size (30 - 1) (snd rd)).
  intros country event offsets Hpos.
  assert (length country = size) as Hc by (unfold country; rewrite length_map; apply draws_length).
  assert (length event = size) as He by (unfold event; rewrite length_map; apply draws_length).
  assert (length offsets = size) as Ho by (unfold offsets; rewrite length_map; apply draws_length).
  assert (date_range <> []) as Hdr by (intros E; apply (f_equal length) in E; discriminate E).
  unfold bind.
  rewrite (np_random_choice_hd draw countries EmptyString) by discriminate.
  fold cd. fold country.
  rewrite (np_random_choice_hd draw date_range 0) by assumption.
  fold ed. fold event.
  rewrite (np_random_choice_hd draw date_range 0) by assumption.
  fold rd.
  set (report := map _ (fst rd)).
  assert (length report = size) as Hr by (unfold report; rewrite length_map; apply draws_length).
  unfold lift at 1. unfold Pandas.pd_DataFrame, Pandas.same_length.
  cbn [forallb snd fst map]. unfold strs at 1 2.
  rewrite !length_map, Hc, He, Hr, Nat.eqb_refl. cbn [andb].
  rewrite PandasFacts.make_series_strs, !PandasFacts.make_series_dates
    by (apply (nonempty_of_length _ size); assumption).
  unfold lift at 1. cbn [Pandas.getitem String.eqb Ascii.eqb Bool.eqb].
  rewrite np_random_randint_run by lia.
  fold od. fold offsets.
  rewrite PandasFacts.add_days_dates by congruence.
  reflexivity.
Qed.

End CountryTable.

(** ** The texts of the sampled tables

    Whatever is drawn, the files of the two sampled tables hold region,
    status and country names, integers and dates, none of them with a
    carriage return: they are read as the rows that were written. *)
Section SampledTexts.
Context {G : Type} (draw : G -> Z -> Z * G).

Lemma large_sample_no_CR g large g' :
  df_large_sample draw g = Some (large, g') ->
  large <> [] /\
  Forall (Forall (fun f => Csv.no_CR f = true)) (Pandas.csv_rows large).
Proof.
  destruct (df_large_sample_run draw g)
    as (region & status & budget & g1 & Hrun & _ & _ & _ & Hrv & Hsv & _).
  rewrite Hrun. intros H. apply (inj Some) in H.
  apply (f_equal fst) in H. cbn [fst] in H. subst large.
  split; [discriminate|]. apply WriterFacts.csv_rows_no_CR.
  - cbn [Pandas.columns map fst].
    do 4 (apply Forall_cons; split; [reflexivity|]). apply Forall_nil_2.
  - apply Forall_cons; split; [apply TextFacts.ints_no_CR|].
    apply Forall_cons; split.
    { refine (TextFacts.strs_no_CR _ _ _ Hrv).
      do 4 (apply Forall_cons; split; [reflexivity|]). apply Forall_nil_2. }
    apply Forall_cons; split.
    { refine (TextFacts.strs_no_CR _ _ _ Hsv).
      do 3 (apply Forall_cons; split; [reflexivity|]). apply Forall_nil_2. }
    apply Forall_cons; split; [apply TextFacts.ints_no_CR|]. apply Forall_nil_2.
Qed.

Lemma country_no_CR g country g' :
  df_country draw g = Some (country, g') ->
  country <> [] /\
  Forall (Forall (fun f => Csv.no_CR f = true)) (Pandas.csv_rows country).
Proof.
  rewrite df_country_run. intros H. apply (inj Some) in H.
  apply (f_equal fst) in H. cbn [fst] in H. subst country.
  split; [discriminate|]. apply WriterFacts.csv_rows_no_CR.
  - cbn [Pandas.columns map fst].
    do 3 (apply Forall_cons; split; [reflexivity|]). apply Forall_nil_2.
  - apply Forall_cons; split.
    { cbn [snd Pandas.values]. apply (TextFacts.strs_no_CR countries).
      - do 8 (apply Forall_cons; split; [reflexivity|]). apply Forall_nil_2.
      - apply choice_hd_elements. discriminate. }
    apply Forall_cons; split; [apply TextFacts.dates_no_CR|].
    apply Forall_cons; split; [apply TextFacts.dates_no_CR|]. apply Forall_nil_2.
Qed.

Lemma large_sample_reader g large g' :
  df_large_sample draw g = Some (large, g') ->
  Csv.reader (Pandas.csv_text large) = Pandas.csv_rows large.
Proof.
  intros H. destruct (large_sample_no_CR g large g' H) as [Hne Hcr].
  apply WriterFacts.reader_csv_text; assumption.
Qed.

Lemma country_reader g country g' :
  df_country draw g = Some (country, g') ->
  Csv.reader (Pandas.csv_text country) = Pandas.csv_rows country.
Proof.
  intros H. destruct (country_no_CR g country g' H) as [Hne Hcr].
  apply WriterFacts.reader_csv_text; assumption.
Qed.

End SampledTexts.

Lemma lookup_lt_length {A : Type} (l : list A) (n i : nat) :
  length l = n -> (i < n)%nat -> exists x, l !! i = Some x.
Proof. intros <- Hi. apply lookup_lt_is_Some_2 in Hi as [x Hx]. eauto. Qed.

Lemma choice_in {A : Type} (a : list A) (d0 : A) (x : Z) :
  a <> [] -> In (nth (Z.to_nat x) a (hd d0 a)) a.
Proof.
  intros Ha. destruct a as [|d a]; [congruence|].
  destruct (Nat.lt_ge_cases (Z.to_nat x) (length (d :: a))) as [Hlt|Hge].
  - apply nth_In. assumption.
  - rewrite nth_overflow by assumption. left. reflexivity.
Qed.

(** Every element of [date_range] is one of the 1460 days from the start
    date on. *)
Lemma date_range_bounds e :
  In e date_range -> start_date <= e <= start_date + 1459.
Proof.
  unfold date_range, range. intros He.
  apply in_map_iff in He as (x & <- & Hx).
  apply in_map_iff in Hx as (k & <- & Hk).
  apply in_seq in Hk.
  replace (Z.to_nat (end_date - start_date)) with 1460%nat in Hk by reflexivity.
  lia.
Qed.

(** C2.  In large_country_data every row's ReportDate is its EventDate plus
    a whole number of days [d] with [1 <= d <= 29]: [d - 1] is the row's own
    draw below 29 of the sampler (numpy's [randint(1, 30)], uniform on
    1..29).  The ReportDate column sampled on its own in the dictionary is
    replaced and plays no part in the table. *)
Theorem report_date_is_event_date_plus_offset {G : Type} (draw : G -> Z -> Z * G)
    (Hrange : in_range draw) (g : G) :
  exists df g',
    df_country draw g = Some (df, g') /\
    forall i : nat, (i < Z.to_nat num_rows_country)%nat ->
      exists e d,
        Pandas.cell df "EventDate" i = Some (VDate e) /\
        Pandas.cell df "ReportDate" i = Some (VDate (e + d)) /\
        1 <= d <= 29 /\
        fst (offset_draws draw g) !! i = Some (d - 1).
Proof.
  eexists _, _. split; [apply df_country_run|].
  intros i Hi.
  destruct (lookup_lt_length (fst (event_draws draw g)) _ i
              (draws_length draw _ _ _) Hi) as [x Hx].
  destruct (lookup_lt_length (fst (offset_draws draw g)) _ i
              (draws_length draw _ _ _) Hi) as [o Ho].
  pose proof (draws_in_range draw (Z.to_nat num_rows_country) (30 - 1)
                (snd (report_draws draw g)) Hrange ltac:(lia)) as Hall.
  fold (offset_draws draw g) in Hall.
  rewrite Forall_forall in Hall.
  specialize (Hall o (list_elem_of_lookup_2 _ _ _ Ho)).
  exists (nth (Z.to_nat x) date_range (hd 0 date_range)), (1 + o).
  unfold Pandas.cell. cbn [Pandas.getitem String.eqb Ascii.eqb Bool.eqb mbind option_bind Pandas.values].
  rewrite !list_lookup_fmap, lookup_zip_with, !list_lookup_fmap, Hx, Ho.
  cbn. repeat split; try lia. f_equal. lia.
Qed.

Lemma in_range_counter_draw : in_range counter_draw.
Proof. intros g k Hk. cbn. apply Z.mod_pos_bound. assumption. Qed.

Lemma in_range_top_draw : in_range top_draw.
Proof. intros g k Hk. cbn. lia. Qed.

Lemma in_range_bottom_draw : in_range bottom_draw.
Proof. intros g k Hk. cbn. lia. Qed.

Lemma report_date_is_event_date_plus_offset_witness :
  in_range counter_draw /\
  exists df g',
    df_country counter_draw 0 = Some (df, g') /\
    forall i : nat, (i < Z.to_nat num_rows_country)%nat ->
      exists e d,
        Pandas.cell df "EventDate" i = Some (VDate e) /\
        Pandas.cell df "ReportDate" i = Some (VDate (e + d)) /\
        1 <= d <= 29 /\
        fst (offset_draws counter_draw 0) !! i = Some (d - 1).
Proof.
  split; [exact in_range_counter_draw|].
  apply (report_date_is_event_date_plus_offset counter_draw in_range_counter_draw 0).
Defined.

Lemma np_arange_NoDup start stop : NoDup (np_arange start stop).
Proof.
  unfold np_arange. apply NoDup_fmap_2; [|apply NoDup_seq].
  intros i j Hij. lia.
Qed.

Lemma np_arange_In start stop k : In k (np_arange start stop) <-> start <= k < stop.
Proof.
  unfold np_arange. rewrite in_map_iff. split.
  - intros (i & <- & Hi). apply in_seq in Hi. lia.
  - intros Hk. exists (Z.to_nat (k - start)). split; [lia|].
    apply in_seq. lia.
Qed.

(** C4.  Both sampled tables have exactly 100000 rows, in every column, and
    their files have 100000 lines under the header.  The ProjectID column of
    large_ngo_projects is 1, 2, ..., 100000: row [i] (from 0) holds [i + 1],
    no value occurs twice and the values are exactly the integers from 1 to
    100000. *)
Theorem large_tables_have_100000_rows {G : Type} (draw : G -> Z -> Z * G) (g : G) :
  (exists large g' ids,
     df_large_sample draw g = Some (large, g') /\
     Z.of_nat (Pandas.nrows large) = 100000 /\
     Z.of_nat (length (Csv.reader (Pandas.csv_text large))) = 100000 + 1 /\
     Forall (fun kv => Z.of_nat (length (Pandas.values (snd kv))) = 100000) large /\
     Pandas.getitem large "ProjectID" = Some (Pandas.mkSeries Pandas.int64 (ints ids)) /\
     (forall i : nat, (Z.of_nat i < 100000) -> ids !! i = Some (Z.of_nat i + 1)) /\
     NoDup ids /\
     (forall k, In k ids <-> 1 <= k <= 100000)) /\
  (exists country g',
     df_country draw g = Some (country, g') /\
     Z.of_nat (Pandas.nrows country) = 100000 /\
     Z.of_nat (length (Csv.reader (Pandas.csv_text country))) = 100000 + 1 /\
     Forall (fun kv => Z.of_nat (length (Pandas.values (snd kv))) = 100000) country).
Proof.
  split.
  - destruct (df_large_sample_run draw g)
      as (region & status & budget & g' & Hrun & Hr & Hs & Hb & _).
    eexists _, g', (np_arange 1 (num_rows_large + 1)).
    split; [exact Hrun|].
    assert (length (np_arange 1 (num_rows_large + 1)) = Z.to_nat 100000) as Hid.
    { rewrite np_arange_length. unfold num_rows_large. lia. }
    unfold num_rows_large in Hr, Hs, Hb.
    split; [|split; [|split; [|split; [|split; [|split]]]]].
    + cbn [Pandas.nrows Pandas.values]. unfold ints. rewrite length_map, Hid. lia.
    + rewrite (large_sample_reader draw g _ _ Hrun), WriterFacts.csv_rows_length.
      cbn [Pandas.nrows Pandas.values]. unfold ints. rewrite length_map, Hid. lia.
    + repeat constructor; cbn [snd Pandas.values]; unfold ints, strs;
        rewrite length_map; lia.
    + reflexivity.
    + intros i Hi. rewrite np_arange_lookup; [f_equal; lia|].
      unfold num_rows_large. lia.
    + apply np_arange_NoDup.
    + intros k. rewrite np_arange_In. unfold num_rows_large. lia.
  - eexists _, _. split; [apply df_country_run|].
    pose proof (draws_length draw (Z.to_nat num_rows_country)
                  (Z.of_nat (length countries)) g) as Hc.
    pose proof (draws_length draw (Z.to_nat num_rows_country)
                  (Z.of_nat (length date_range)) (snd (country_draws draw g))) as He.
    pose proof (draws_length draw (Z.to_nat num_rows_country)
                  (30 - 1) (snd (report_draws draw g))) as Ho.
    fold (country_draws draw g) in Hc. fold (event_draws draw g) in He.
    fold (offset_draws draw g) in Ho.
    unfold num_rows_country in Hc, He, Ho.
    split; [|split].
    + cbn [Pandas.nrows Pandas.values]. unfold strs. rewrite !length_map, Hc. lia.
    + rewrite (country_reader draw g _ _ (df_country_run draw g)),
        WriterFacts.csv_rows_length.
      cbn [Pandas.nrows Pandas.values]. unfold strs. rewrite !length_map, Hc. lia.
    + repeat constructor; cbn [snd Pandas.values]; unfold strs;
        rewrite ?length_map, ?length_zip_with, ?length_map; lia.
Qed.

(** C5.  In large_country_data every Country value is one of the eight
    strings of [countries].  The eight are distinct strings; four of them
    spell the United States and two the United Kingdom, and exactly one,
    the lower-case United States entry, starts with white space. *)
Theorem country_values_in_vocabulary {G : Type} (draw : G -> Z -> Z * G) (g : G) :
  (exists df g' col,
     df_country draw g = Some (df, g') /\
     Pandas.getitem df "Country" = Some col /\
     Forall (fun v => exists c, v = VStr c /\ In c countries) (Pandas.values col)) /\
  length countries = 8%nat /\
  NoDup countries /\
  (forall c, In c ["United States"; "USA"; "United States of America";
                   "   united states"; "UK"; "United Kingdom"] -> In c countries) /\
  List.filter starts_with_space countries = ["   united states"].
Proof.
  split; [|split; [reflexivity|split; [|split]]].
  - eexists _, _, _. split; [apply df_country_run|]. split; [reflexivity|].
    cbn [Pandas.values]. unfold strs. apply Forall_map, Forall_map.
    apply Forall_forall. intros x _. eexists. split; [reflexivity|].
    apply choice_in. discriminate.
  - apply (bool_decide_unpack _). vm_compute. exact I.
  - intros c Hc. unfold countries. cbn in *. tauto.
  - reflexivity.
Qed.

Lemma draws_always_top {G : Type} (draw : G -> Z -> Z * G) n k g :
  always_top draw -> Forall (fun x => x = k - 1) (fst (draws draw n k g)).
Proof.
  intros Htop. revert g. induction n as [|n IH]; intros g; [constructor|].
  cbn [draws]. pose proof (Htop g k) as Hx. destruct (draw g k) as [x g1].
  specialize (IH g1). destruct (draws draw n k g1) as [xs g2].
  cbn in *. constructor; auto.
Qed.

Lemma draws_always_bottom {G : Type} (draw : G -> Z -> Z * G) n k g :
  always_bottom draw -> Forall (fun x => x = 0) (fst (draws draw n k g)).
Proof.
  intros Hbot. revert g. induction n as [|n IH]; intros g; [constructor|].
  cbn [draws]. pose proof (Hbot g k) as Hx. destruct (draw g k) as [x g1].
  specialize (IH g1). destruct (draws draw n k g1) as [xs g2].
  cbn in *. constructor; auto.
Qed.

Lemma always_top_top_draw : always_top top_draw.
Proof. intros g k. reflexivity. Qed.

Lemma always_bottom_bottom_draw : always_bottom bottom_draw.
Proof. intros g k. reflexivity. Qed.

Lemma end_date_not_sampled : ~ In end_date date_range.
Proof.
  intros H. apply date_range_bounds in H.
  unfold end_date, start_date in H. vm_compute in H. destruct H as [_ H]. apply H. reflexivity.
Qed.

(** The frame of [df_country] is built whatever the generator does. *)
Lemma df_country_built {G : Type} (draw : G -> Z -> Z * G) (g : G) :
  exists df g', df_country draw g = Some (df, g').
Proof. eexists _, _. apply df_country_run. Qed.

(** The cells of that frame, by the draws behind them. *)
Lemma df_country_cells {G : Type} (draw : G -> Z -> Z * G) (g g' : G)
    (df : Pandas.DataFrame) (i : nat) :
  df_country draw g = Some (df, g') ->
  (i < Z.to_nat num_rows_country)%nat ->
  exists c x o,
    fst (country_draws draw g) !! i = Some c /\
    fst (event_draws draw g) !! i = Some x /\
    fst (offset_draws draw g) !! i = Some o /\
    Pandas.cell df "Country" i
    = Some (VStr (nth (Z.to_nat c) countries (hd EmptyString countries))) /\
    Pandas.cell df "EventDate" i
    = Some (VDate (nth (Z.to_nat x) date_range (hd 0 date_range))) /\
    Pandas.cell df "ReportDate" i
    = Some (VDate (nth (Z.to_nat x) date_range (hd 0 date_range) + (1 + o))).
Proof.
  intros Hrun Hi.
  destruct (lookup_lt_length (fst (country_draws draw g)) _ i
              (draws_length draw _ _ _) Hi) as [c Hc].
  destruct (lookup_lt_length (fst (event_draws draw g)) _ i
              (draws_length draw _ _ _) Hi) as [x Hx].
  destruct (lookup_lt_length (fst (offset_draws draw g)) _ i
              (draws_length draw _ _ _) Hi) as [o Ho].
  exists c, x, o.
  rewrite df_country_run in Hrun. apply (inj Some) in Hrun.
  apply (f_equal fst) in Hrun. cbn [fst] in Hrun. subst df.
  unfold Pandas.cell.
  cbn [Pandas.getitem String.eqb Ascii.eqb Bool.eqb mbind option_bind Pandas.values].
  unfold strs.
  rewrite !list_lookup_fmap, lookup_zip_with, !list_lookup_fmap, Hc, Hx, Ho.
  repeat split; reflexivity.
Qed.

Lemma top_event_date :
  nth (Z.to_nat (Z.of_nat (length date_range) - 1)) date_range (hd 0 date_range)
  = Datetime.datetime 2023 12 30.
Proof. vm_compute. reflexivity. Qed.

(** A generator that always draws the largest value fills every row with
    the last day of the range and the largest offset. *)
Lemma df_country_always_top {G : Type} (draw : G -> Z -> Z * G) (g : G) :
  always_top draw ->
  exists df g',
    df_country draw g = Some (df, g') /\
    forall i : nat, (i < Z.to_nat num_rows_country)%nat ->
      Pandas.cell df "EventDate" i = Some (VDate (Datetime.datetime 2023 12 30)) /\
      Pandas.cell df "ReportDate" i = Some (VDate (Datetime.datetime 2024 1 28)).
Proof.
  intros Htop.
  destruct (df_country_built draw g) as (df & g' & Hrun).
  exists df, g'. split; [exact Hrun|].
  intros i Hi.
  destruct (df_country_cells draw g g' df i Hrun Hi)
    as (c & x & o & Hc & Hx & Ho & _ & He & Hr).
  assert (x = Z.of_nat (length date_range) - 1) as Hxs.
  { unfold event_draws in Hx.
    exact (proj1 (Forall_forall _ _) (draws_always_top draw _ _ _ Htop) x
             (list_elem_of_lookup_2 _ _ _ Hx)). }
  assert (o = 30 - 1 - 1) as Hos.
  { unfold offset_draws in Ho.
    exact (proj1 (Forall_forall _ _) (draws_always_top draw _ _ _ Htop) o
             (list_elem_of_lookup_2 _ _ _ Ho)). }
  subst x o. rewrite He, Hr, top_event_date. split; reflexivity.
Qed.

(** C9.  Every EventDate of large_country_data lies between 2020-01-01 and
    2023-12-30: the day range is built for [range((end_date - start_date).days)],
    which stops one day before the end date 2023-12-31, so that date is never
    drawn.  A ReportDate is later than its EventDate and at most 2024-01-28,
    which is after the end date; a run that draws the largest values has
    2023-12-30 and 2024-01-28 in every row. *)
Theorem event_date_never_end_date {G : Type} (draw : G -> Z -> Z * G)
    (Hrange : in_range draw) (g : G) :
  (exists df g',
     df_country draw g = Some (df, g') /\
     forall i : nat, (i < Z.to_nat num_rows_country)%nat ->
       exists e r,
         Pandas.cell df "EventDate" i = Some (VDate e) /\
         Pandas.cell df "ReportDate" i = Some (VDate r) /\
         Datetime.datetime 2020 1 1 <= e <= Datetime.datetime 2023 12 30 /\
         e <> end_date /\
         e < r <= Datetime.datetime 2024 1 28) /\
  end_date = Datetime.datetime 2023 12 31 /\
  ~ In end_date date_range /\
  last date_range = Some (Datetime.datetime 2023 12 30) /\
  (exists df g',
     df_country top_draw tt = Some (df, g') /\
     forall i : nat, (i < Z.to_nat num_rows_country)%nat ->
       Pandas.cell df "EventDate" i = Some (VDate (Datetime.datetime 2023 12 30)) /\
       Pandas.cell df "ReportDate" i = Some (VDate (Datetime.datetime 2024 1 28))) /\
  end_date < Datetime.datetime 2024 1 28.
Proof.
  assert (date_range <> []) as Hdr
    by (intros E; apply (f_equal length) in E; discriminate E).
  split; [|split; [reflexivity|split; [exact end_date_not_sampled|split;
    [vm_compute; reflexivity|split; [|reflexivity]]]]].
  - destruct (df_country_built draw g) as (df & g' & Hrun).
    exists df, g'. split; [exact Hrun|].
    intros i Hi.
    destruct (df_country_cells draw g g' df i Hrun Hi)
      as (c & x & o & Hc & Hx & Ho & _ & He & Hr).
    assert (0 <= o < 30 - 1) as Hall.
    { unfold offset_draws in Ho.
      exact (proj1 (Forall_forall _ _)
               (draws_in_range draw _ (30 - 1) _ Hrange ltac:(lia)) o
               (list_elem_of_lookup_2 _ _ _ Ho)). }
    pose proof (choice_in date_range 0 x Hdr) as Hin.
    pose proof (date_range_bounds _ Hin) as Hb.
    eexists _, _. split; [exact He|]. split; [exact Hr|].
    change (Datetime.datetime 2020 1 1) with start_date.
    replace (Datetime.datetime 2023 12 30) with (start_date + 1459) by reflexivity.
    replace (Datetime.datetime 2024 1 28) with (start_date + 1459 + 29) by reflexivity.
    split; [lia|]. split; [|lia].
    intros E. rewrite E in Hin. exact (end_date_not_sampled Hin).
  - exact (df_country_always_top top_draw tt always_top_top_draw).
Qed.

Lemma event_date_never_end_date_witness :
  in_range top_draw /\
  exists df g',
    df_country top_draw tt = Some (df, g') /\
    forall i : nat, (i < Z.to_nat num_rows_country)%nat ->
      exists e r,
        Pandas.cell df "EventDate" i = Some (VDate e) /\
        Pandas.cell df "ReportDate" i = Some (VDate r) /\
        Datetime.datetime 2020 1 1 <= e <= Datetime.datetime 2023 12 30 /\
        e <> end_date /\
        e < r <= Datetime.datetime 2024 1 28.
Proof.
  split; [exact in_range_top_draw|].
  exact (proj1 (event_date_never_end_date top_draw in_range_top_draw tt)).
Defined.

(** ** The override of health_data *)
Module OverrideFacts.
Import Pandas PandasFacts.

Lemma make_series_length l : length (values (make_series l)) = length l.
Proof.
  unfold make_series. destruct (infer_dtype l); cbn [values];
    rewrite ?length_map; reflexivity.
Qed.

Lemma make_series_nan l i :
  l !! i = Some VNaN -> values (make_series l) !! i = Some VNaN.
Proof.
  intros H. unfold make_series. destruct (infer_dtype l); cbn [values]; try exact H.
  rewrite list_lookup_fmap, H. reflexivity.
Qed.

Lemma same_length_all data k0 l0 rest :
  data = (k0, l0) :: rest -> same_length data = true ->
  forall k l, In (k, l) data -> length l = length l0.
Proof.
  intros -> H k l [E|Hin].
  - congruence.
  - cbn in H. rewrite forallb_forall in H.
    specialize (H (k, l) Hin). cbn in H. apply Nat.eqb_eq in H. exact H.
Qed.

Lemma getitem_built data col s :
  getitem (map (fun kv => (fst kv, make_series (snd kv))) data) col = Some s ->
  exists l, In (col, l) data /\ s = make_series l.
Proof.
  induction data as [|[k l] data IH]; cbn; [discriminate|].
  destruct (String.eqb_spec k col) as [->|Hne].
  - intros [= <-]. exists l. auto.
  - intros H. destruct (IH H) as (l' & Hin & Hs). exists l'. auto.
Qed.

(** All columns of a frame the constructor has built have as many
    values. *)
Lemma pd_DataFrame_lengths data df c1 c2 s1 s2 :
  pd_DataFrame data = Some df ->
  getitem df c1 = Some s1 -> getitem df c2 = Some s2 ->
  length (values s1) = length (values s2).
Proof.
  unfold pd_DataFrame. destruct (same_length data) eqn:Hsame; [|discriminate].
  intros [= <-] H1 H2.
  apply getitem_built in H1 as (l1 & Hin1 & ->).
  apply getitem_built in H2 as (l2 & Hin2 & ->).
  rewrite !make_series_length.
  destruct data as [|[k0 l0] rest]; [destruct Hin1|].
  rewrite (same_length_all _ k0 l0 rest eq_refl Hsame _ _ Hin1).
  rewrite (same_length_all _ k0 l0 rest eq_refl Hsame _ _ Hin2).
  reflexivity.
Qed.

Lemma mask_assign_true mask v l i :
  mask !! i = Some true -> (i < length l)%nat -> mask_assign mask v l !! i = Some v.
Proof.
  revert l i. induction mask as [|b mask IH]; intros l i Hm Hi; [discriminate|].
  destruct l as [|x l]; [cbn in Hi; lia|].
  destruct i as [|i]; cbn in *.
  - injection Hm as ->. reflexivity.
  - apply IH; [exact Hm|lia].
Qed.

Lemma eq_mask_true s v i :
  v <> VNaN -> values s !! i = Some v -> eq_mask s v !! i = Some true.
Proof.
  intros Hv H. unfold eq_mask. rewrite list_lookup_fmap, H. cbn.
  destruct v; try congruence; rewrite bool_decide_eq_true_2; reflexivity.
Qed.

(** Whatever the dictionary holds, after the override the medication of
    every "Flu" row is missing. *)
Lemma flu_override_any data df :
  pd_DataFrame data ≫= flu_override = Some df ->
  forall i : nat,
    cell df "Diagnosis" i = Some (VStr "Flu") ->
    cell df "Medication" i = Some VNaN.
Proof.
  destruct (pd_DataFrame data) as [df0|] eqn:Hbuilt; [|discriminate].
  cbn [mbind option_bind]. unfold flu_override.
  destruct (getitem df0 "Diagnosis") as [diag|] eqn:Hdiag; [|discriminate].
  cbn [mbind option_bind]. intros [= <-] i.
  unfold cell, loc_setitem.
  set (mask := eq_mask diag (VStr "Flu")).
  assert (forall s, getitem (setitem df0 "Medication" s) "Diagnosis" = Some diag) as Hd.
  { intros s. rewrite getitem_setitem_ne by discriminate. exact Hdiag. }
  destruct (getitem df0 "Medication") as [med|] eqn:Hmed.
  - rewrite Hd, getitem_setitem. cbn [mbind option_bind]. intros Hflu.
    assert (mask !! i = Some true) as Hm by (apply eq_mask_true; [discriminate|exact Hflu]).
    assert (i < length (values med))%nat as Hi.
    { rewrite (pd_DataFrame_lengths _ _ _ _ _ _ Hbuilt Hmed Hdiag).
      apply lookup_lt_Some in Hflu. exact Hflu. }
    pose proof (mask_assign_true mask VNaN (values med) i Hm Hi) as Hl.
    destruct (dtype_of med); try (apply make_series_nan; exact Hl).
    exact Hl.
  - rewrite Hd, getitem_setitem. cbn [mbind option_bind]. intros Hflu.
    assert (mask !! i = Some true) as Hm by (apply eq_mask_true; [discriminate|exact Hflu]).
    apply make_series_nan. rewrite list_lookup_fmap, Hm. reflexivity.
Qed.

End OverrideFacts.

(** C1 as stated fails: no row of health_records has a diagnosis or a
    medication field. *)
Lemma health_records_has_no_medication :
  ~ (forall t, In t [df_health; df_health_records] ->
       exists df, t = Some df /\ flu_medication_missing df).
Proof.
  intros H.
  destruct (H df_health_records ltac:(right; left; reflexivity)) as (df & Hdf & Hflu).
  vm_compute in Hdf. injection Hdf as <-.
  destruct (Hflu 0%nat ltac:(cbn; lia)) as (d & m & Hd & _).
  vm_compute in Hd. discriminate Hd.
Qed.

(** C1, amended.  In health_data every row whose diagnosis is "Flu" has a
    missing medication after generation, whatever the dictionary gives for
    that cell: the override works on any dictionary, and in the script it
    replaces the 'A' of the first and the fifth row.  health_records is
    written as built from its dictionary, which has no diagnosis and no
    medication column. *)
Theorem flu_rows_of_health_data_lose_medication
    (data : list (string * list value)) (df : Pandas.DataFrame)
    (Hbuilt : Pandas.pd_DataFrame data ≫= flu_override = Some df) :
  (forall i : nat,
     Pandas.cell df "Diagnosis" i = Some (VStr "Flu") ->
     Pandas.cell df "Medication" i = Some VNaN) /\
  (exists health,
     df_health = Some health /\
     flu_medication_missing health /\
     dict_cell data_health "Medication" 0 = Some (VStr "A") /\
     Pandas.cell health "Medication" 0 = Some VNaN /\
     dict_cell data_health "Medication" 4 = Some (VStr "A") /\
     Pandas.cell health "Medication" 4 = Some VNaN) /\
  (exists records,
     df_health_records = Some records /\
     Pandas.pd_DataFrame data_health_records = Some records /\
     Pandas.getitem records "Diagnosis" = None /\
     Pandas.getitem records "Medication" = None).
Proof.
  split; [exact (OverrideFacts.flu_override_any data df Hbuilt)|].
  split.
  - exists (default [] df_health). split; [reflexivity|].
    split; [|repeat split; reflexivity].
    intros i Hi. change (Pandas.nrows (default [] df_health)) with 10%nat in Hi.
    do 10 (destruct i as [|i];
           [eexists _, _; split; [reflexivity|]; split; [reflexivity|];
            first [reflexivity | discriminate]|]).
    lia.
  - exists (default [] df_health_records). repeat split; reflexivity.
Qed.

Lemma flu_rows_of_health_data_lose_medication_witness :
  Pandas.pd_DataFrame data_health ≫= flu_override = Some (default [] df_health) /\
  forall i : nat,
    Pandas.cell (default [] df_health) "Diagnosis" i = Some (VStr "Flu") ->
    Pandas.cell (default [] df_health) "Medication" i = Some VNaN.
Proof.
  split; [reflexivity|].
  exact (proj1 (flu_rows_of_health_data_lose_medication
                  data_health (default [] df_health) eq_refl)).
Defined.

(** C10.  In health_data the medication is missing exactly on the "Flu"
    rows: every missing marker of the dictionary's Medication list is on a
    "Flu" row, and every other row keeps the medication the dictionary gives
    it, which is not missing. *)
Theorem medication_missing_iff_flu :
  exists df,
    df_health = Some df /\
    Pandas.nrows df = 10%nat /\
    (forall i : nat, (i < 10)%nat ->
       exists d m,
         Pandas.cell df "Diagnosis" i = Some d /\
         Pandas.cell df "Medication" i = Some m /\
         (m = VNaN <-> d = VStr "Flu")) /\
    (forall i : nat,
       dict_cell data_health "Medication" i = Some VNaN ->
       dict_cell data_health "Diagnosis" i = Some (VStr "Flu")) /\
    (forall (i : nat) d m,
       dict_cell data_health "Diagnosis" i = Some d ->
       dict_cell data_health "Medication" i = Some m ->
       d <> VStr "Flu" ->
       Pandas.cell df "Medication" i = Some m /\ m <> VNaN).
Proof.
  exists (default [] df_health). split; [reflexivity|]. split; [reflexivity|].
  split; [|split].
  - intros i Hi.
    do 10 (destruct i as [|i];
           [eexists _, _; split; [reflexivity|]; split; [reflexivity|];
            split; intros E; first [reflexivity | discriminate E]|]).
    lia.
  - intros i.
    do 10 (destruct i as [|i]; [intros E; first [reflexivity | discriminate E]|]).
    intros E. discriminate E.
  - intros i d m.
    do 10 (destruct i as [|i];
           [intros [= <-] [= <-] Hd;
            first [congruence | split; [reflexivity|discriminate]]|]).
    intros E. discriminate E.
Qed.
(** ** The literal tables, written and read back *)

(** C3 as stated fails: the file of health_data does not read back as the
    dictionary specifies it, which gives 'A' where the file has a missing
    value. *)
Lemma health_data_reads_back_overridden :
  ~ Forall reads_back_as_specified literal_tables.
Proof.
  intros H. rewrite Forall_forall in H.
  assert (~ reads_back_as_specified (mkLiteral "health_data.csv" data_health df_health))
    as Hhealth.
  { unfold reads_back_as_specified. apply (bool_decide_unpack _). vm_compute. exact I. }
  apply Hhealth, H, list_elem_of_In. unfold literal_tables. cbn. tauto.
Qed.

(** C3, amended.  For every literal table the written file, read with the
    column types its dictionary specifies, gives exactly the table that was
    generated: the same columns in the same order, the same rows, every
    string with its white space and every missing value in its place.  For
    every table but health_data that is the table its dictionary specifies,
    value for value: an integer column comes back as the integers specified,
    and only in a column that holds missing values (Age of
    beneficiary_data_missing) does a specified integer come back as the equal
    float.  For health_data the other columns are as specified and the
    medication is missing on the "Flu" rows, whatever the dictionary gives
    there. *)
Theorem literal_tables_read_back_as_generated :
  Forall (fun t =>
            exists df,
              frame t = Some df /\
              read_back_as_specified t = Some df /\
              read_back (frame t) = Some df /\
              Csv.reader (Pandas.csv_text df) = Pandas.csv_rows df /\
              Pandas.columns df = map fst (data t) /\
              (file t <> "health_data.csv" -> df = specified (data t)))
         literal_tables /\
  (exists df medication,
     df_health = Some df /\
     without_medication df = without_medication (specified data_health) /\
     overridden_medication data_health = Some medication /\
     medication = [VNaN; VStr "B"; VNaN; VStr "C"; VNaN; VStr "B"; VNaN; VStr "C";
                   VStr "B"; VNaN] /\
     Pandas.getitem df "Medication" = Some (Pandas.mkSeries Pandas.object medication)) /\
  (exists missing item messy,
     read_back df_missing = Some missing /\
     read_back df_item = Some item /\
     read_back df_messy = Some messy /\
     Pandas.getitem missing "BeneficiaryID"
     = Some (Pandas.mkSeries Pandas.int64 (ints [1; 2; 3; 4; 5; 6; 7])) /\
     Pandas.getitem missing "Age"
     = Some (Pandas.mkSeries Pandas.float64
               [VFloat 25 0; VFloat 34 0; VNaN; VFloat 45 0; VFloat 19 0; VNaN;
                VFloat 50 0]) /\
     Pandas.getitem missing "AssistanceType"
     = Some (Pandas.mkSeries Pandas.object
               [VStr "Food"; VStr "Shelter"; VNaN; VStr "Food"; VStr "Medical";
                VStr "Shelter"; VStr "Food"]) /\
     Pandas.getitem item "Item"
     = Some (Pandas.mkSeries Pandas.object
               (strs ["   apple"; "BANANA "; "orange"; " GRAPES  "])) /\
     Pandas.getitem messy "ProjectID"
     = Some (Pandas.mkSeries Pandas.object (strs ["101"; "102"; "103 "; "104"; "105"])) /\
     Pandas.getitem messy "Region"
     = Some (Pandas.mkSeries Pandas.object
               (strs ["East Africa "; "south asia"; "WEST AFRICA"; "East Africa";
                      "South Asia"]))).
Proof.
  split; [|split].
  - unfold literal_tables.
    repeat (apply Forall_cons; split;
            [eexists; cbn [frame data file];
             split; [reflexivity|];
             split; [vm_compute; reflexivity|];
             split; [vm_compute; reflexivity|];
             split; [vm_compute; reflexivity|];
             split; [reflexivity|];
             intros Hne;
             first [ exfalso; apply Hne; reflexivity
                   | vm_compute; reflexivity ]|]).
    apply Forall_nil_2.
  - eexists _, _. split; [reflexivity|].
    split; [vm_compute; reflexivity|].
    split; [reflexivity|].
    split; [vm_compute; reflexivity|]. reflexivity.
  - eexists _, _, _.
    split; [vm_compute; reflexivity|].
    split; [vm_compute; reflexivity|].
    split; [vm_compute; reflexivity|].
    repeat (split; [reflexivity|]). reflexivity.
Qed.

(** C6 as stated fails: AssistanceType in beneficiary_data_missing holds a
    missing value and is written as its strings, which are not numbers. *)
Lemma string_column_with_missing_value :
  ~ (forall df, df_missing = Some df -> missing_columns_numeric df).
Proof.
  intros H. specialize (H (default [] df_missing) eq_refl).
  revert H. apply (bool_decide_unpack _). vm_compute. exact I.
Qed.

Lemma ints_not_missing (l : list Z) : VNaN ∉ ints l.
Proof.
  rewrite list_elem_of_In. unfold ints. rewrite in_map_iff.
  intros (n & Hn & _). discriminate Hn.
Qed.

Lemma strs_not_missing (l : list string) : VNaN ∉ strs l.
Proof.
  rewrite list_elem_of_In. unfold strs. rewrite in_map_iff.
  intros (n & Hn & _). discriminate Hn.
Qed.

Lemma dates_not_missing (l : list Z) : VNaN ∉ map VDate l.
Proof.
  rewrite list_elem_of_In, in_map_iff. intros (n & Hn & _). discriminate Hn.
Qed.

Lemma ints_written (l : list Z) :
  Forall (fun v => Pandas.render v <> EmptyString) (ints l).
Proof. apply Forall_map, Forall_forall. intros n _. apply TextFacts.pretty_nonempty. Qed.

Lemma dates_written (l : list Z) :
  Forall (fun v => Pandas.render v <> EmptyString) (map VDate l).
Proof. apply Forall_map, Forall_forall. intros o _. apply TextFacts.isoformat_nonempty. Qed.

Lemma strs_written (vocabulary l : list string) :
  Forall (fun s => s <> EmptyString) vocabulary ->
  Forall (fun s => In s vocabulary) l ->
  Forall (fun v => Pandas.render v <> EmptyString) (strs l).
Proof.
  intros Hv Hl. apply Forall_map. eapply Forall_impl; [exact Hl|].
  cbn. intros s Hs. rewrite Forall_forall in Hv. apply Hv, list_elem_of_In, Hs.
Qed.

(** The sampled tables hold no missing value, and their files no empty
    field. *)
Lemma large_sample_without_missing {G : Type} (draw : G -> Z -> Z * G) g large g' :
  df_large_sample draw g = Some (large, g') ->
  Forall (fun col => VNaN ∉ Pandas.values (snd col)) large /\
  Forall (Forall (fun f => f <> EmptyString)) (Csv.reader (Pandas.csv_text large)).
Proof.
  intros Hrun. rewrite (large_sample_reader draw g large g' Hrun).
  destruct (df_large_sample_run draw g)
    as (region & status & budget & g1 & Hrun' & Hr & Hs & Hb & Hrv & Hsv & _).
  rewrite Hrun' in Hrun. apply (inj Some) in Hrun.
  apply (f_equal fst) in Hrun. cbn [fst] in Hrun. subst large.
  assert (length (np_arange 1 (num_rows_large + 1)) = Z.to_nat num_rows_large) as Hid.
  { rewrite np_arange_length. lia. }
  split.
  - apply Forall_cons; split; [apply ints_not_missing|].
    apply Forall_cons; split; [apply strs_not_missing|].
    apply Forall_cons; split; [apply strs_not_missing|].
    apply Forall_cons; split; [apply ints_not_missing|]. apply Forall_nil_2.
  - unfold Pandas.csv_rows. apply Forall_cons. split.
    { cbn [Pandas.columns map fst].
      do 4 (apply Forall_cons; split; [discriminate|]). apply Forall_nil_2. }
    apply WriterFacts.body_fields_full.
    + cbn [Pandas.nrows Pandas.values].
      do 4 (apply Forall_cons; split;
            [cbn [snd Pandas.values]; unfold ints, strs; rewrite !length_map; congruence|]).
      apply Forall_nil_2.
    + apply Forall_cons; split; [apply ints_written|].
      apply Forall_cons; split.
      { refine (strs_written _ _ _ Hrv).
        do 4 (apply Forall_cons; split; [discriminate|]). apply Forall_nil_2. }
      apply Forall_cons; split.
      { refine (strs_written _ _ _ Hsv).
        do 3 (apply Forall_cons; split; [discriminate|]). apply Forall_nil_2. }
      apply Forall_cons; split; [apply ints_written|]. apply Forall_nil_2.
Qed.

Lemma country_without_missing {G : Type} (draw : G -> Z -> Z * G) g country g' :
  df_country draw g = Some (country, g') ->
  Forall (fun col => VNaN ∉ Pandas.values (snd col)) country /\
  Forall (Forall (fun f => f <> EmptyString)) (Csv.reader (Pandas.csv_text country)).
Proof.
  intros Hrun. rewrite (country_reader draw g country g' Hrun).
  rewrite df_country_run in Hrun. apply (inj Some) in Hrun.
  apply (f_equal fst) in Hrun. cbn [fst] in Hrun. subst country.
  pose proof (draws_length draw (Z.to_nat num_rows_country)
                (Z.of_nat (length countries)) g) as Hc.
  pose proof (draws_length draw (Z.to_nat num_rows_country)
                (Z.of_nat (length date_range)) (snd (country_draws draw g))) as He.
  pose proof (draws_length draw (Z.to_nat num_rows_country)
                (30 - 1) (snd (report_draws draw g))) as Ho.
  fold (country_draws draw g) in Hc. fold (event_draws draw g) in He.
  fold (offset_draws draw g) in Ho.
  revert Hc He Ho.
  generalize (fst (country_draws draw g)) as cs.
  generalize (fst (event_draws draw g)) as es.
  generalize (fst (offset_draws draw g)) as os.
  generalize (Z.to_nat num_rows_country) as n.
  intros n os es cs Hc He Ho.
  split.
  - apply Forall_cons; split; [apply strs_not_missing|].
    apply Forall_cons; split; [apply dates_not_missing|].
    apply Forall_cons; split; [apply dates_not_missing|]. apply Forall_nil_2.
  - unfold Pandas.csv_rows. apply Forall_cons. split.
    { cbn [Pandas.columns map fst].
      do 3 (apply Forall_cons; split; [discriminate|]). apply Forall_nil_2. }
    apply WriterFacts.body_fields_full.
    + cbn [Pandas.nrows Pandas.values].
      do 3 (apply Forall_cons; split;
            [cbn [snd Pandas.values]; unfold strs;
             rewrite ?length_map, ?length_zip_with, ?length_map; lia|]).
      apply Forall_nil_2.
    + apply Forall_cons; split.
      { cbn [snd Pandas.values]. apply (strs_written countries).
        - do 8 (apply Forall_cons; split; [discriminate|]). apply Forall_nil_2.
        - apply choice_hd_elements. discriminate. }
      apply Forall_cons; split; [apply dates_written|].
      apply Forall_cons; split; [apply dates_written|]. apply Forall_nil_2.
Qed.

(** C6, amended.  In the file of every literal table each column is written
    as the dictionary specifies it (for health_data, with the medication
    missing on the "Flu" rows).  A missing value is the empty field, at the
    place of its cell, and no other field is empty.  An integer of a column of
    integers is written as its integer literal, also next to a column that
    holds missing values (BeneficiaryID of beneficiary_data_missing, UpdateID
    and ProjectID of project_updates).  In a column of numbers that holds
    missing values an integer is written as the literal of the equal float
    ([25.0]), so the column reads as numbers and empty fields.  A column of
    strings that holds missing values is written as its strings and empty
    fields.  The two sampled tables hold no missing value in any run, and
    their files no empty field. *)
Theorem missing_values_are_written_empty {G : Type} (draw : G -> Z -> Z * G) (g : G) :
  Forall (fun t =>
            exists df,
              frame t = Some df /\
              written_as_specified (written_data t) (Pandas.csv_text df))
         literal_tables /\
  ReadBack.read_text (text_of df_missing)
  = Some [ ("BeneficiaryID", ["1"; "2"; "3"; "4"; "5"; "6"; "7"]);
           ("Age", ["25.0"; "34.0"; ""; "45.0"; "19.0"; ""; "50.0"]);
           ("Gender", ["Female"; "Male"; "Female"; "Male"; "Female"; "Male"; "Female"]);
           ("Location", ["Camp A"; "Village B"; "Camp A"; "Village C"; "Camp B";
                         "Village B"; "Camp A"]);
           ("AssistanceType", ["Food"; "Shelter"; ""; "Food"; "Medical"; "Shelter";
                               "Food"]) ] /\
  ReadBack.read_text (text_of df_project_updates)
  = Some [ ("UpdateID", ["1"; "2"; "3"; "4"; "5"; "6"]);
           ("ProjectID", ["101"; "102"; "101"; "103"; "102"; "104"]);
           ("Date", ["2023-01-20"; "2023-02-05"; "2023-03-15"; "2023-04-10";
                     "2023-05-25"; "2023-06-05"]);
           ("Status", ["On Track"; "Completed"; ""; "Delayed"; "On Track"; ""]);
           ("Notes", ["Initial report"; "Finalized"; "Needs review"; "";
                      "Mid-term update"; ""]) ] /\
  (exists large g1 country g2,
     df_large_sample draw g = Some (large, g1) /\
     df_country draw g1 = Some (country, g2) /\
     Forall (fun df =>
               Forall (fun col => VNaN ∉ Pandas.values (snd col)) df /\
               Forall (Forall (fun f => f <> EmptyString))
                      (Csv.reader (Pandas.csv_text df)))
            [large; country]).
Proof.
  split; [|split; [|split]].
  - unfold literal_tables.
    repeat (apply Forall_cons; split;
            [eexists; cbn [frame]; split; [reflexivity|];
             eexists; split; [vm_compute; reflexivity|];
             apply (bool_decide_unpack _); vm_compute; exact I|]).
    apply Forall_nil_2.
  - vm_compute. reflexivity.
  - vm_compute. reflexivity.
  - destruct (df_large_sample_run draw g)
      as (region & status & budget & g1 & Hlarge & _).
    destruct (df_country_built draw g1) as (country & g2 & Hcountry).
    eexists _, g1, country, g2. split; [exact Hlarge|]. split; [exact Hcountry|].
    apply Forall_cons; split; [exact (large_sample_without_missing draw g _ _ Hlarge)|].
    apply Forall_cons; split; [exact (country_without_missing draw g1 _ _ Hcountry)|].
    apply Forall_nil_2.
Qed.

(** ** A whole run *)
Lemma last_write_app path evs1 evs2 :
  last_write path (evs1 ++ evs2)
  = match last_write path evs2 with
    | Some t => Some t
    | None => last_write path evs1
    end.
Proof.
  induction evs1 as [|e evs1 IH]; cbn [app last_write].
  - destruct (last_write path evs2); reflexivity.
  - rewrite IH. destruct (last_write path evs2); reflexivity.
Qed.

Lemma last_write_not_written path evs :
  path ∉ map fst (written evs) -> last_write path evs = None.
Proof.
  induction evs as [|e evs IH]; [reflexivity|].
  intros Hp. cbn [last_write].
  destruct e as [p t|l]; cbn in Hp.
  - apply not_elem_of_cons in Hp as [Hne Hp]. rewrite (IH Hp).
    destruct (String.eqb_spec p path); [congruence|reflexivity].
  - rewrite (IH Hp). reflexivity.
Qed.

(** The header of a written frame, and the shape of the rows under it. *)
Lemma csv_text_header df header :
  Csv.reader (Pandas.csv_text df) = Pandas.csv_rows df ->
  Pandas.columns df = header ->
  exists body,
    Csv.reader (Pandas.csv_text df) = header :: body /\
    Forall (fun r => length r = length header) body.
Proof.
  intros Hread <-. exists (map (map Pandas.render) (Pandas.rows df)).
  split; [exact Hread|].
  pose proof (WriterFacts.csv_rows_shape df) as H.
  unfold Pandas.csv_rows in H. apply Forall_cons in H as [_ H]. exact H.
Qed.

(** Every run ends normally, with the events of [script_events] for its
    two sampled tables. *)
Lemma generate_ngo_data_events {G : Type} (draw : G -> Z -> Z * G) (w : world G) :
  exists large country g1 g2,
    df_large_sample draw (rng w) = Some (large, g1) /\
    df_country draw g1 = Some (country, g2) /\
    generate_ngo_data draw w
    = Some (tt, mkWorld g2 (events w ++ script_events large country)).
Proof.
  destruct (df_large_sample_run draw (rng w))
    as (region & status & budget & g1 & Hlarge & _).
  destruct (df_country_built draw g1) as (country & g2 & Hcountry).
  eexists _, country, g1, g2. split; [exact Hlarge|]. split; [exact Hcountry|].
  rewrite generate_ngo_data_run, Hlarge, Hcountry. reflexivity.
Qed.

Lemma df_large_sample_columns {G : Type} (draw : G -> Z -> Z * G) g df g' :
  df_large_sample draw g = Some (df, g') ->
  Pandas.columns df = ["ProjectID"; "Region"; "Status"; "Budget"].
Proof.
  destruct (df_large_sample_run draw g)
    as (region & status & budget & g1 & Hlarge & _).
  rewrite Hlarge. intros H. apply (inj Some) in H.
  apply (f_equal fst) in H. cbn [fst] in H. subst df. reflexivity.
Qed.

Lemma df_country_columns {G : Type} (draw : G -> Z -> Z * G) g df g' :
  df_country draw g = Some (df, g') ->
  Pandas.columns df = ["Country"; "EventDate"; "ReportDate"].
Proof.
  rewrite df_country_run. intros H. apply (inj Some) in H.
  apply (f_equal fst) in H. cbn [fst] in H. subst df. reflexivity.
Qed.

(** The file of a literal table: its text is computed and read. *)
Ltac literal_header :=
  apply Forall2_cons; split;
  [apply csv_text_header; [vm_compute; reflexivity|reflexivity]|].

(** C7.  A run ends normally after exactly twenty writes followed by one
    print of the success message, and nothing else.  The twenty paths are
    distinct and have no directory part, so twenty files of the working
    directory are written and no other file is touched.  Every file reads as
    comma-separated rows: first the column names of its dictionary, in
    order, then rows that have one field for every column and no index
    field. *)
Theorem run_writes_twenty_files {G : Type} (draw : G -> Z -> Z * G) (w : world G) :
  exists g' texts,
    let run := zip_with Write output_files texts ++ [Print success_message] in
    generate_ngo_data draw w = Some (tt, mkWorld g' (events w ++ run)) /\
    length output_files = 20%nat /\
    length texts = 20%nat /\
    NoDup output_files /\
    Forall (fun p => in_working_directory p = true) output_files /\
    Forall2 (fun text header =>
               exists body,
                 Csv.reader text = header :: body /\
                 Forall (fun r => length r = length header) body)
            texts output_headers /\
    printed run = [success_message] /\
    (forall fs : gmap string string,
       dom (files_after run fs) = dom fs ∪ list_to_set output_files /\
       forall p, p ∉ output_files -> files_after run fs !! p = fs !! p) /\
    size (files_after run ∅) = 20%nat.
Proof.
  destruct (generate_ngo_data_events draw w)
    as (large & country & g1 & g2 & Hlarge & Hcountry & Hrun).
  pose proof (df_large_sample_columns draw _ _ _ Hlarge) as Hlc.
  pose proof (df_country_columns draw _ _ _ Hcountry) as Hcc.
  exists g2, (map snd (written (script_events large country))).
  assert (NoDup output_files) as Hnd
    by (apply (bool_decide_unpack _); vm_compute; exact I).
  cbv zeta.
  change (zip_with Write output_files (map snd (written (script_events large country)))
          ++ [Print success_message])
    with (script_events large country).
  assert (map fst (written (script_events large country)) = output_files) as Hnames
    by reflexivity.
  split; [exact Hrun|]. split; [reflexivity|]. split; [reflexivity|].
  split; [exact Hnd|]. split; [repeat constructor|].
  split; [|split; [reflexivity|split]].
  - unfold output_headers.
    do 2 literal_header.
    apply Forall2_cons; split;
      [apply csv_text_header; [exact (large_sample_reader draw _ _ _ Hlarge)|exact Hlc]|].
    do 7 literal_header.
    apply Forall2_cons; split;
      [apply csv_text_header; [exact (country_reader draw _ _ _ Hcountry)|exact Hcc]|].
    do 9 literal_header.
    apply Forall2_nil_2.
  - intros fs. split.
    + rewrite WriterFacts.files_after_dom, Hnames. reflexivity.
    + intros p Hp. rewrite WriterFacts.files_after_lookup.
      rewrite last_write_not_written; [reflexivity|]. rewrite Hnames. exact Hp.
  - rewrite <- size_dom, WriterFacts.files_after_dom, Hnames, dom_empty_L.
    rewrite (left_id_L ∅ (∪)), size_list_to_set by exact Hnd. reflexivity.
Qed.

(** ** Two runs *)
Lemma df_country_nrows {G : Type} (draw : G -> Z -> Z * G) g df g' :
  df_country draw g = Some (df, g') ->
  Pandas.nrows df = Z.to_nat num_rows_country.
Proof.
  rewrite df_country_run. intros H. apply (inj Some) in H.
  apply (f_equal fst) in H. cbn [fst] in H. subst df.
  cbn [Pandas.nrows Pandas.values]. unfold strs. rewrite !length_map.
  apply draws_length.
Qed.

Lemma getitem_lookup (df : list (string * Pandas.Series)) col s :
  Pandas.getitem df col = Some s -> exists j : nat, df !! j = Some (col, s).
Proof.
  induction df as [|[k x] df IH]; cbn; [discriminate|].
  destruct (String.eqb_spec k col) as [->|Hne].
  - intros [= ->]. exists 0%nat. reflexivity.
  - intros H. destruct (IH H) as [j Hj]. exists (S j). exact Hj.
Qed.

(** A generator that always draws the smallest value fills every row with
    the first day of the range. *)
Lemma df_country_always_bottom {G : Type} (draw : G -> Z -> Z * G) (g g' : G) df :
  always_bottom draw ->
  df_country draw g = Some (df, g') ->
  forall i : nat, (i < Z.to_nat num_rows_country)%nat ->
    Pandas.cell df "EventDate" i = Some (VDate (Datetime.datetime 2020 1 1)).
Proof.
  intros Hbot Hrun i Hi.
  destruct (df_country_cells draw g g' df i Hrun Hi)
    as (c & x & o & Hc & Hx & Ho & _ & He & Hr).
  assert (x = 0) as ->.
  { unfold event_draws in Hx.
    exact (proj1 (Forall_forall _ _) (draws_always_bottom draw _ _ _ Hbot) x
             (list_elem_of_lookup_2 _ _ _ Hx)). }
  rewrite He. reflexivity.
Qed.

(** The text of a frame determines the text of each of its cells. *)
Lemma csv_text_cell df col (i : nat) v :
  Csv.reader (Pandas.csv_text df) = Pandas.csv_rows df ->
  Pandas.cell df col i = Some v -> (i < Pandas.nrows df)%nat ->
  exists j : nat,
    Csv.reader (Pandas.csv_text df) !! S i ≫= (fun r => r !! j)
    = Some (Pandas.render v) /\
    Pandas.columns df !! j = Some col.
Proof.
  unfold Pandas.cell. intros Hread Hcell Hi.
  destruct (Pandas.getitem df col) as [s|] eqn:Hs; [|discriminate].
  cbn in Hcell. destruct (getitem_lookup df col s Hs) as [j Hj].
  exists j. split.
  - rewrite Hread.
    exact (WriterFacts.csv_field df i j col s v Hj Hcell Hi).
  - unfold Pandas.columns. rewrite list_lookup_fmap.
    unfold Pandas.DataFrame in *. rewrite Hj. reflexivity.
Qed.

Lemma columns_lookup_country (j : nat) :
  ["Country"; "EventDate"; "ReportDate"] !! j = Some "EventDate" -> j = 1%nat.
Proof. destruct j as [|[|[|j]]]; intros H; try reflexivity; discriminate H. Qed.

Lemma country_texts_differ {G1 G2 : Type}
    (draw1 : G1 -> Z -> Z * G1) (draw2 : G2 -> Z -> Z * G2) g1 g1' g2 g2' df1 df2 :
  always_bottom draw1 -> always_top draw2 ->
  df_country draw1 g1 = Some (df1, g1') ->
  df_country draw2 g2 = Some (df2, g2') ->
  Pandas.csv_text df1 <> Pandas.csv_text df2.
Proof.
  intros Hbot Htop Hrun1 Hrun2 Htext.
  assert (0 < Z.to_nat num_rows_country)%nat as Hpos
    by (unfold num_rows_country; lia).
  pose proof (df_country_always_bottom draw1 g1 g1' df1 Hbot Hrun1 0%nat Hpos) as Hc1.
  destruct (df_country_always_top draw2 g2 Htop) as (df2' & g2'' & Hrun2' & Hc2).
  rewrite Hrun2 in Hrun2'. apply (inj Some) in Hrun2'.
  apply (f_equal fst) in Hrun2'. cbn [fst] in Hrun2'. subst df2'.
  destruct (Hc2 0%nat Hpos) as [Hc2' _].
  destruct (csv_text_cell df1 _ _ _ (country_reader draw1 _ _ _ Hrun1) Hc1)
    as (j1 & Hf1 & Hj1).
  { rewrite (df_country_nrows draw1 _ _ _ Hrun1). exact Hpos. }
  destruct (csv_text_cell df2 _ _ _ (country_reader draw2 _ _ _ Hrun2) Hc2')
    as (j2 & Hf2 & Hj2).
  { rewrite (df_country_nrows draw2 _ _ _ Hrun2). exact Hpos. }
  rewrite (df_country_columns draw1 _ _ _ Hrun1) in Hj1.
  rewrite (df_country_columns draw2 _ _ _ Hrun2) in Hj2.
  apply columns_lookup_country in Hj1, Hj2. subst j1 j2.
  rewrite Htext, Hf2 in Hf1. vm_compute in Hf1. discriminate Hf1.
Qed.

Lemma script_events_country large country :
  last_write "large_country_data.csv" (script_events large country)
  = Some (Pandas.csv_text country).
Proof. reflexivity. Qed.

Lemma script_events_literal large country :
  Forall (fun t => last_write (file t) (script_events large country)
                   = Some (text_of (frame t)))
         literal_tables.
Proof. unfold literal_tables. repeat (apply Forall_cons; split; [reflexivity|]). apply Forall_nil_2. Qed.

Lemma runs_differ {G1 G2 : Type}
    (draw1 : G1 -> Z -> Z * G1) (draw2 : G2 -> Z -> Z * G2)
    (w1 : world G1) (w2 : world G2) (fs1 fs2 : gmap string string) :
  always_bottom draw1 -> always_top draw2 ->
  exists w1' w2',
    generate_ngo_data draw1 w1 = Some (tt, w1') /\
    generate_ngo_data draw2 w2 = Some (tt, w2') /\
    files_after (events w1') fs1 !! "large_country_data.csv"
    <> files_after (events w2') fs2 !! "large_country_data.csv".
Proof.
  intros Hbot Htop.
  destruct (generate_ngo_data_events draw1 w1)
    as (l1 & c1 & g1 & g1' & _ & Hc1 & Hrun1).
  destruct (generate_ngo_data_events draw2 w2)
    as (l2 & c2 & g2 & g2' & _ & Hc2 & Hrun2).
  eexists _, _. split; [exact Hrun1|]. split; [exact Hrun2|].
  cbn [events].
  rewrite !WriterFacts.files_after_lookup, !last_write_app, !script_events_country.
  intros [= H]. exact (country_texts_differ draw1 draw2 _ _ _ _ _ _ Hbot Htop Hc1 Hc2 H).
Qed.

(** C8.  Two runs of the script, whatever their generators draw and
    whatever files were there before, leave the same text in the file of each
    of the eighteen literal tables: the text of the table's frame, in which
    the generator plays no part.  The two sampled tables can differ between
    runs: the run that always draws the smallest value and the run that always
    draws the largest write different large_country_data files. *)
Theorem literal_files_same_in_every_run {G1 G2 : Type}
    (draw1 : G1 -> Z -> Z * G1) (draw2 : G2 -> Z -> Z * G2)
    (w1 : world G1) (w2 : world G2) :
  (exists w1' w2',
     generate_ngo_data draw1 w1 = Some (tt, w1') /\
     generate_ngo_data draw2 w2 = Some (tt, w2') /\
     Forall (fun t =>
               forall fs1 fs2 : gmap string string,
                 files_after (events w1') fs1 !! file t = Some (text_of (frame t)) /\
                 files_after (events w2') fs2 !! file t = Some (text_of (frame t)))
            literal_tables) /\
  length literal_tables = 18%nat /\
  (exists w1' w2',
     generate_ngo_data bottom_draw (mkWorld tt []) = Some (tt, w1') /\
     generate_ngo_data top_draw (mkWorld tt []) = Some (tt, w2') /\
     files_after (events w1') ∅ !! "large_country_data.csv"
     <> files_after (events w2') ∅ !! "large_country_data.csv").
Proof.
  split; [|split; [reflexivity|]].
  - destruct (generate_ngo_data_events draw1 w1)
      as (l1 & c1 & g1 & g1' & _ & _ & Hrun1).
    destruct (generate_ngo_data_events draw2 w2)
      as (l2 & c2 & g2 & g2' & _ & _ & Hrun2).
    eexists _, _. split; [exact Hrun1|]. split; [exact Hrun2|].
    cbn [events].
    pose proof (script_events_literal l1 c1) as H1.
    pose proof (script_events_literal l2 c2) as H2.
    rewrite Forall_forall in H1, H2. apply Forall_forall. intros t Ht fs1 fs2.
    rewrite !WriterFacts.files_after_lookup, !last_write_app,
      (H1 t Ht), (H2 t Ht).
    split; reflexivity.
  - exact (runs_differ bottom_draw top_draw (mkWorld tt []) (mkWorld tt []) ∅ ∅
             always_bottom_bottom_draw always_top_top_draw).
Qed.

(** * Further properties of the script's operations *)

(** ** The constructor *)
Module ConstructorFacts.
Import Pandas.

Lemma make_series_dtype l : dtype_of (make_series l) = infer_dtype l.
Proof. unfold make_series. destruct (infer_dtype l); reflexivity. Qed.

Lemma astype_float_idem v : astype_float (astype_float v) = astype_float v.
Proof. destruct v; reflexivity. Qed.

Lemma is_number_astype_float v : is_number (astype_float v) = is_number v.
Proof. destruct v; reflexivity. Qed.

Lemma is_int_astype_float v : is_int (astype_float v) = false.
Proof. destruct v; reflexivity. Qed.

(** Building a column from the values of a built column changes
    nothing. *)
Lemma make_series_idem l : make_series (values (make_series l)) = make_series l.
Proof.
  destruct l as [|v l]; [reflexivity|].
  destruct (forallb is_int (v :: l)) eqn:Hint.
  { assert (make_series (v :: l) = mkSeries int64 (v :: l)) as E
      by (unfold make_series, infer_dtype; rewrite Hint; reflexivity).
    rewrite E. exact E. }
  destruct (forallb is_number (v :: l)) eqn:Hnum.
  - assert (make_series (v :: l) = mkSeries float64 (map astype_float (v :: l))) as E
      by (unfold make_series, infer_dtype; rewrite Hint, Hnum; reflexivity).
    rewrite E. cbn [values].
    assert (forallb is_number (map astype_float (v :: l)) = true) as Hn.
    { rewrite forallb_forall in Hnum. apply forallb_forall.
      intros x Hx. apply in_map_iff in Hx as (y & <- & Hy).
      rewrite is_number_astype_float. apply Hnum, Hy. }
    unfold make_series, infer_dtype. rewrite Hn.
    cbn [map forallb]. rewrite is_int_astype_float. cbn [andb].
    rewrite astype_float_idem. do 2 f_equal.
    rewrite map_map. apply map_ext. intros x. apply astype_float_idem.
  - destruct (forallb is_date (v :: l)) eqn:Hdate.
    + assert (make_series (v :: l) = mkSeries datetime64 (v :: l)) as E
        by (unfold make_series, infer_dtype; rewrite Hint, Hnum, Hdate; reflexivity).
      rewrite E. exact E.
    + assert (make_series (v :: l) = mkSeries object (v :: l)) as E
        by (unfold make_series, infer_dtype; rewrite Hint, Hnum, Hdate; reflexivity).
      rewrite E. exact E.
Qed.

End ConstructorFacts.

(** ** The override, on any frame *)
Module OverrideMore.
Import Pandas PandasFacts OverrideFacts ConstructorFacts.

Lemma mask_assign_length mask v l : length (mask_assign mask v l) = length l.
Proof.
  revert l. induction mask as [|b mask IH]; intros [|x l]; cbn; try reflexivity.
  rewrite IH. reflexivity.
Qed.

Lemma mask_assign_other mask v l (i : nat) :
  mask !! i <> Some true -> mask_assign mask v l !! i = l !! i.
Proof.
  revert l i. induction mask as [|b mask IH]; intros [|x l] i Hm; try reflexivity.
  destruct i as [|i]; cbn in *.
  - destruct b; [congruence|reflexivity].
  - apply IH. exact Hm.
Qed.

Lemma mask_assign_flu mask v l (i : nat) :
  mask !! i = Some true -> (i < length l)%nat -> mask_assign mask v l !! i = Some v.
Proof.
  revert l i. induction mask as [|b mask IH]; intros [|x l] i Hm Hi;
    try discriminate Hm; cbn in Hi; try lia.
  destruct i as [|i]; cbn in *.
  - injection Hm as ->. reflexivity.
  - apply IH; [exact Hm|lia].
Qed.

Lemma mask_assign_idem mask v l :
  mask_assign mask v (mask_assign mask v l) = mask_assign mask v l.
Proof.
  revert l. induction mask as [|b mask IH]; intros [|x l]; cbn; try reflexivity.
  rewrite IH. destruct b; reflexivity.
Qed.

Lemma mask_assign_map (f : value -> value) mask v l :
  f v = v -> mask_assign mask v (map f l) = map f (mask_assign mask v l).
Proof.
  intros Hf. revert l. induction mask as [|b mask IH]; intros [|x l]; cbn;
    try reflexivity.
  rewrite IH. destruct b; congruence.
Qed.

Lemma mask_assign_all mask v l :
  Forall (fun x => x = v) l -> mask_assign mask v l = l.
Proof.
  intros H. revert mask. induction H as [|x l -> _ IH]; intros [|b mask]; cbn;
    try reflexivity.
  rewrite IH. destruct b; reflexivity.
Qed.

Lemma eq_mask_lookup s v (i : nat) :
  eq_mask s v !! i = Some true -> values s !! i = Some v.
Proof.
  unfold eq_mask. rewrite list_lookup_fmap.
  destruct (values s !! i) as [x|]; [|discriminate]. cbn.
  destruct x; try discriminate; intros [= H]; apply bool_decide_eq_true_1 in H;
    congruence.
Qed.

(** Assigning [nan] under a mask to the values of a built column, when
    they were assigned under that mask before, changes nothing. *)
Lemma mask_assign_built mask l :
  mask_assign mask VNaN (values (make_series (mask_assign mask VNaN l)))
  = values (make_series (mask_assign mask VNaN l)).
Proof.
  unfold make_series. destruct (infer_dtype (mask_assign mask VNaN l));
    cbn [values]; try apply mask_assign_idem.
  rewrite mask_assign_map by reflexivity. rewrite mask_assign_idem. reflexivity.
Qed.

Lemma setitem_setitem df col s s' :
  setitem (setitem df col s) col s' = setitem df col s'.
Proof.
  induction df as [|[k old] df IH]; cbn.
  - rewrite String.eqb_refl. reflexivity.
  - destruct (String.eqb k col) eqn:E; cbn; rewrite E; [reflexivity|].
    rewrite IH. reflexivity.
Qed.

Lemma setitem_columns df col s old :
  getitem df col = Some old -> columns (setitem df col s) = columns df.
Proof.
  unfold columns. induction df as [|[k x] df IH]; cbn; [discriminate|].
  destruct (String.eqb k col) eqn:E; cbn; [reflexivity|].
  intros H. rewrite (IH H). reflexivity.
Qed.

Lemma setitem_nrows df col s old :
  getitem df col = Some old -> length (values s) = length (values old) ->
  nrows (setitem df col s) = nrows df.
Proof.
  destruct df as [|[k x] df]; cbn; [discriminate|].
  destruct (String.eqb k col) eqn:E; cbn; [|reflexivity].
  intros [= ->] H. exact H.
Qed.

Lemma assigned_length mask med : length (values (assigned mask med)) = length (values med).
Proof.
  unfold assigned. destruct (dtype_of med); cbn [values];
    rewrite ?make_series_length; apply mask_assign_length.
Qed.

Lemma rebuilt_series l :
  match dtype_of (make_series l) with
  | object => mkSeries object (values (make_series l))
  | _ => make_series (values (make_series l))
  end = make_series l.
Proof.
  destruct (dtype_of (make_series l)) eqn:Hd; try apply make_series_idem.
  destruct (make_series l) as [d vs]. cbn in *. subst d. reflexivity.
Qed.

Lemma assigned_idem mask med : assigned mask (assigned mask med) = assigned mask med.
Proof.
  destruct (dtype_of med) eqn:Hd.
  1-3: assert (assigned mask med
               = make_series (mask_assign mask VNaN (values med))) as ->
         by (unfold assigned; rewrite Hd; reflexivity);
       unfold assigned; rewrite mask_assign_built; apply rebuilt_series.
  assert (assigned mask med
          = mkSeries object (mask_assign mask VNaN (values med))) as ->
    by (unfold assigned; rewrite Hd; reflexivity).
  unfold assigned. cbn [dtype_of values]. rewrite mask_assign_idem. reflexivity.
Qed.

Lemma flu_override_run df diag :
  getitem df "Diagnosis" = Some diag ->
  flu_override df
  = Some (setitem df "Medication"
            (match getitem df "Medication" with
             | Some med => assigned (eq_mask diag (VStr "Flu")) med
             | None =>
                 make_series (map (fun b : bool => if b then VNaN else VNaN)
                                  (eq_mask diag (VStr "Flu")))
             end)).
Proof.
  intros Hd. unfold flu_override, loc_setitem, assigned. rewrite Hd.
  cbn [mbind option_bind].
  destruct (getitem df "Medication") as [med|]; [|reflexivity].
  destruct (dtype_of med); reflexivity.
Qed.

End OverrideMore.

Lemma flu_override_diagnosis df df' :
  flu_override df = Some df' -> exists diag, Pandas.getitem df "Diagnosis" = Some diag.
Proof.
  unfold flu_override. destruct (Pandas.getitem df "Diagnosis") as [diag|]; [eauto|].
  discriminate.
Qed.

(** X2.  On a frame whose Medication column is an object column, as in
    the script, the override changes nothing but medication cells of "Flu"
    rows.  Every other column is the same afterwards, the columns and their
    order and the number of rows stay, the Medication column is an object
    column of the same length, and in a row whose diagnosis is not "Flu" the
    medication is exactly what it was. *)
Theorem flu_override_changes_only_flu_medication
    (df df' : Pandas.DataFrame) (med : Pandas.Series)
    (Hmed : Pandas.getitem df "Medication" = Some med)
    (Hobject : Pandas.dtype_of med = Pandas.object)
    (Hrun : flu_override df = Some df') :
  (forall col, col <> "Medication" -> Pandas.getitem df' col = Pandas.getitem df col) /\
  Pandas.columns df' = Pandas.columns df /\
  Pandas.nrows df' = Pandas.nrows df /\
  exists med',
    Pandas.getitem df' "Medication" = Some med' /\
    Pandas.dtype_of med' = Pandas.object /\
    length (Pandas.values med') = length (Pandas.values med) /\
    (forall i : nat,
       Pandas.cell df "Diagnosis" i = Some (VStr "Flu") ->
       (i < length (Pandas.values med))%nat ->
       Pandas.values med' !! i = Some VNaN) /\
    (forall i : nat,
       Pandas.cell df "Diagnosis" i <> Some (VStr "Flu") ->
       Pandas.values med' !! i = Pandas.values med !! i).
Proof.
  destruct (flu_override_diagnosis df df' Hrun) as [diag Hdiag].
  rewrite (OverrideMore.flu_override_run df diag Hdiag) in Hrun.
  injection Hrun as <-. split.
  - intros col Hcol. apply PandasFacts.getitem_setitem_ne. congruence.
  - rewrite Hmed.
    set (mask := Pandas.eq_mask diag (VStr "Flu")).
    assert (forall i : nat, Pandas.cell df "Diagnosis" i <> Some (VStr "Flu") ->
                            mask !! i <> Some true) as Hmask.
    { intros i Hi Hm. apply Hi. unfold Pandas.cell. rewrite Hdiag. cbn.
      apply OverrideMore.eq_mask_lookup. exact Hm. }
    split; [exact (OverrideMore.setitem_columns df _ _ med Hmed)|].
    split; [apply (OverrideMore.setitem_nrows df _ _ med Hmed),
              OverrideMore.assigned_length|].
    exists (assigned mask med).
    split; [apply PandasFacts.getitem_setitem|].
    split; [unfold assigned; rewrite Hobject; reflexivity|].
    split; [apply OverrideMore.assigned_length|]. split.
    + intros i Hflu Hi. unfold assigned. rewrite Hobject. cbn [Pandas.values].
      apply OverrideMore.mask_assign_flu; [|exact Hi].
      unfold Pandas.cell in Hflu. rewrite Hdiag in Hflu. cbn in Hflu.
      unfold mask, Pandas.eq_mask. rewrite list_lookup_fmap, Hflu. cbn.
      rewrite bool_decide_eq_true_2 by reflexivity. reflexivity.
    + intros i Hi. unfold assigned. rewrite Hobject. cbn [Pandas.values].
      apply OverrideMore.mask_assign_other, Hmask, Hi.
Qed.

Lemma flu_override_changes_only_flu_medication_witness :
  Pandas.getitem (default [] (Pandas.pd_DataFrame data_health)) "Medication"
  = Some (Pandas.mkSeries Pandas.object
            [VStr "A"; VStr "B"; VNaN; VStr "C"; VStr "A"; VStr "B"; VNaN; VStr "C";
             VStr "B"; VNaN]) /\
  flu_override (default [] (Pandas.pd_DataFrame data_health)) = Some (default [] df_health) /\
  Pandas.columns (default [] df_health)
  = Pandas.columns (default [] (Pandas.pd_DataFrame data_health)) /\
  Pandas.nrows (default [] df_health)
  = Pandas.nrows (default [] (Pandas.pd_DataFrame data_health)).
Proof.
  split; [reflexivity|]. split; [reflexivity|].
  pose proof (flu_override_changes_only_flu_medication
                (default [] (Pandas.pd_DataFrame data_health)) (default [] df_health)
                (Pandas.mkSeries Pandas.object
                   [VStr "A"; VStr "B"; VNaN; VStr "C"; VStr "A"; VStr "B"; VNaN;
                    VStr "C"; VStr "B"; VNaN])
                eq_refl eq_refl eq_refl) as H.
  split; [exact (proj1 (proj2 H))|exact (proj1 (proj2 (proj2 H)))].
Defined.

(** X3.  The override is idempotent: applied to its own result it succeeds
    and returns that result unchanged, whatever the types and contents of the
    frame's columns. *)
Theorem flu_override_idempotent
    (df df' : Pandas.DataFrame) (Hrun : flu_override df = Some df') :
  flu_override df' = Some df'.
Proof.
  destruct (flu_override_diagnosis df df' Hrun) as [diag Hdiag].
  rewrite (OverrideMore.flu_override_run df diag Hdiag) in Hrun.
  injection Hrun as <-.
  set (mask := Pandas.eq_mask diag (VStr "Flu")).
  set (new := match Pandas.getitem df "Medication" with
              | Some med => assigned mask med
              | None => Pandas.make_series (map (fun b : bool => if b then VNaN else VNaN) mask)
              end).
  assert (Pandas.getitem (Pandas.setitem df "Medication" new) "Diagnosis" = Some diag) as Hd
    by (rewrite PandasFacts.getitem_setitem_ne by discriminate; exact Hdiag).
  rewrite (OverrideMore.flu_override_run _ diag Hd), PandasFacts.getitem_setitem.
  fold mask. rewrite OverrideMore.setitem_setitem. do 2 f_equal.
  unfold new. destruct (Pandas.getitem df "Medication") as [med|].
  - apply OverrideMore.assigned_idem.
  - set (l := map (fun b : bool => if b then VNaN else VNaN) mask).
    assert (Pandas.mask_assign mask VNaN l = l) as Hl.
    { apply OverrideMore.mask_assign_all, Forall_map, Forall_forall.
      intros [] _; reflexivity. }
    rewrite <- Hl. unfold assigned.
    rewrite OverrideMore.mask_assign_built. apply OverrideMore.rebuilt_series.
Qed.

Lemma flu_override_idempotent_witness :
  flu_override (default [] (Pandas.pd_DataFrame data_health)) = Some (default [] df_health) /\
  flu_override (default [] df_health) = Some (default [] df_health).
Proof.
  split; [reflexivity|].
  exact (flu_override_idempotent (default [] (Pandas.pd_DataFrame data_health))
           (default [] df_health) eq_refl).
Defined.

(** ** The sampled tables *)

(** X4.  In large_ngo_projects every Region is one of the four region
    names, every Status one of the three status names and every Budget an
    integer from 50000 to 499999: the upper bound 500000 of [randint] is never
    drawn.  No cell of the table is missing. *)
Theorem large_sample_value_domains {G : Type} (draw : G -> Z -> Z * G)
    (Hrange : in_range draw) (g : G) :
  exists df g' region status budget,
    df_large_sample draw g = Some (df, g') /\
    Pandas.getitem df "Region" = Some (Pandas.mkSeries Pandas.object (strs region)) /\
    Pandas.getitem df "Status" = Some (Pandas.mkSeries Pandas.object (strs status)) /\
    Pandas.getitem df "Budget" = Some (Pandas.mkSeries Pandas.int64 (ints budget)) /\
    Forall (fun r => In r ["East Africa"; "South Asia"; "West Africa"; "Latin America"]) region /\
    Forall (fun s => In s ["Active"; "Completed"; "Pending"]) status /\
    Forall (fun b => 50000 <= b <= 499999) budget /\
    Forall (fun col => Forall (fun v => v <> VNaN) (Pandas.values (snd col))) df.
Proof.
  destruct (df_large_sample_run draw g)
    as (region & status & budget & g' & Hrun & _ & _ & _ & Hr & Hs & Hb).
  eexists _, g', region, status, budget. split; [exact Hrun|].
  split; [reflexivity|]. split; [reflexivity|]. split; [reflexivity|].
  split; [exact Hr|]. split; [exact Hs|]. split.
  - eapply Forall_impl; [exact (Hb Hrange)|]. cbn. intros b H. lia.
  - do 4 (apply Forall_cons; split;
          [cbn [snd Pandas.values]; unfold ints, strs;
           apply Forall_map, Forall_forall; intros x _; discriminate|]).
    apply Forall_nil_2.
Qed.

Lemma large_sample_value_domains_witness :
  in_range counter_draw /\
  exists df g' region status budget,
    df_large_sample counter_draw 0 = Some (df, g') /\
    Pandas.getitem df "Region" = Some (Pandas.mkSeries Pandas.object (strs region)) /\
    Pandas.getitem df "Status" = Some (Pandas.mkSeries Pandas.object (strs status)) /\
    Pandas.getitem df "Budget" = Some (Pandas.mkSeries Pandas.int64 (ints budget)) /\
    Forall (fun r => In r ["East Africa"; "South Asia"; "West Africa"; "Latin America"]) region /\
    Forall (fun s => In s ["Active"; "Completed"; "Pending"]) status /\
    Forall (fun b => 50000 <= b <= 499999) budget /\
    Forall (fun col => Forall (fun v => v <> VNaN) (Pandas.values (snd col))) df.
Proof.
  split; [exact in_range_counter_draw|].
  exact (large_sample_value_domains counter_draw in_range_counter_draw 0).
Defined.

(** X5.  The table of [df_country] is a function of the draws for the
    countries, the event dates and the offsets alone: two runs that agree on
    these build the same table, whatever they draw for the ReportDate column of
    the dictionary, which line 128 replaces.  Its columns stay in the order
    Country, EventDate, ReportDate, the two date columns as datetimes. *)
Theorem df_country_ignores_sampled_report_dates {G1 G2 : Type}
    (draw1 : G1 -> Z -> Z * G1) (draw2 : G2 -> Z -> Z * G2) (g1 : G1) (g2 : G2)
    (Hcountry : fst (country_draws draw1 g1) = fst (country_draws draw2 g2))
    (Hevent : fst (event_draws draw1 g1) = fst (event_draws draw2 g2))
    (Hoffset : fst (offset_draws draw1 g1) = fst (offset_draws draw2 g2)) :
  exists df g1' g2',
    df_country draw1 g1 = Some (df, g1') /\
    df_country draw2 g2 = Some (df, g2') /\
    Pandas.columns df = ["Country"; "EventDate"; "ReportDate"] /\
    ReadBack.dtypes df = [Pandas.object; Pandas.datetime64; Pandas.datetime64].
Proof.
  pose proof (df_country_run draw1 g1) as H1.
  pose proof (df_country_run draw2 g2) as H2.
  cbv zeta in H1, H2. rewrite <- Hcountry, <- Hevent, <- Hoffset in H2.
  eexists _, _, _. split; [exact H1|]. split; [exact H2|].
  split; reflexivity.
Qed.

(** Generators that behave as [skip_draw b]: what they draw. *)
Lemma skip_like_draws (draw : Z -> Z -> Z * Z) (b : Z) n k g :
  (forall g k, draw g k = skip_draw b g k) ->
  draws draw n k g
  = (map (fun i : nat => fst (skip_draw b (g + Z.of_nat i) k)) (seq 0 n),
     g + Z.of_nat n).
Proof.
  intros Hd. revert g. induction n as [|n IH]; intros g.
  - cbn. f_equal. lia.
  - cbn [draws]. pose proof (Hd g k) as E. unfold skip_draw in E. rewrite E. clear E.
    lazy beta iota. rewrite IH. lazy beta iota. unfold skip_draw. cbn [fst seq map].
    replace (g + Z.of_nat 0) with g by lia.
    replace (g + Z.of_nat (S n)) with (g + 1 + Z.of_nat n) by lia.
    do 2 f_equal.
    rewrite <- seq_shift, map_map. apply map_ext. intros i.
    replace (g + Z.of_nat (S i)) with (g + 1 + Z.of_nat i) by lia. reflexivity.
Qed.

Lemma skip_like_agree (draw1 draw2 : Z -> Z -> Z * Z) (b1 b2 : Z) :
  (forall g k, draw1 g k = skip_draw b1 g k) ->
  (forall g k, draw2 g k = skip_draw b2 g k) ->
  fst (country_draws draw1 0) = fst (country_draws draw2 0) /\
  fst (event_draws draw1 0) = fst (event_draws draw2 0) /\
  fst (offset_draws draw1 0) = fst (offset_draws draw2 0) /\
  (b1 <> b2 -> fst (report_draws draw1 0) <> fst (report_draws draw2 0)).
Proof.
  intros H1 H2.
  unfold offset_draws, report_draws, event_draws, country_draws.
  assert (Z.of_nat (Z.to_nat num_rows_country) = 100000) as Hn by reflexivity.
  revert Hn. generalize (Z.to_nat num_rows_country) as n. intros n Hn.
  rewrite !(skip_like_draws draw1 b1) by exact H1.
  rewrite !(skip_like_draws draw2 b2) by exact H2.
  cbn [fst snd]. unfold skip_draw. cbn [fst].
  repeat split.
  - apply map_ext_in. intros i Hi. apply in_seq in Hi.
    destruct (Z.leb_spec 200000 (0 + Z.of_nat i)); [lia|reflexivity].
  - apply map_ext_in. intros i Hi. apply in_seq in Hi.
    destruct (Z.ltb_spec (0 + Z.of_nat n + Z.of_nat i) 300000); [|lia].
    destruct (Z.leb_spec 200000 (0 + Z.of_nat n + Z.of_nat i)); [lia|reflexivity].
  - apply map_ext_in. intros i Hi. apply in_seq in Hi.
    destruct (Z.ltb_spec (0 + Z.of_nat n + Z.of_nat n + Z.of_nat n + Z.of_nat i) 300000);
      [lia|].
    rewrite andb_false_r. reflexivity.
  - intros Hb E. destruct n as [|n]; [discriminate Hn|].
    cbn [seq map] in E. injection E as E _.
    destruct (Z.leb_spec 200000 (0 + Z.of_nat (S n) + Z.of_nat (S n) + Z.of_nat 0)); [|lia].
    destruct (Z.ltb_spec (0 + Z.of_nat (S n) + Z.of_nat (S n) + Z.of_nat 0) 300000); [|lia].
    cbn in E. exact (Hb E).
Qed.

Lemma df_country_ignores_sampled_report_dates_witness :
  (fst (country_draws (skip_draw 0) 0) = fst (country_draws (skip_draw 1) 0) /\
   fst (event_draws (skip_draw 0) 0) = fst (event_draws (skip_draw 1) 0) /\
   fst (offset_draws (skip_draw 0) 0) = fst (offset_draws (skip_draw 1) 0) /\
   fst (report_draws (skip_draw 0) 0) <> fst (report_draws (skip_draw 1) 0)) /\
  exists df g1' g2',
    df_country (skip_draw 0) 0 = Some (df, g1') /\
    df_country (skip_draw 1) 0 = Some (df, g2') /\
    Pandas.columns df = ["Country"; "EventDate"; "ReportDate"] /\
    ReadBack.dtypes df = [Pandas.object; Pandas.datetime64; Pandas.datetime64].
Proof.
  destruct (skip_like_agree (skip_draw 0) (skip_draw 1) 0 1
              (fun _ _ => eq_refl) (fun _ _ => eq_refl)) as (Hc & He & Ho & Hr).
  assert (0 <> 1) as Hne by discriminate.
  split; [exact (conj Hc (conj He (conj Ho (Hr Hne))))|].
  exact (df_country_ignores_sampled_report_dates
           (skip_draw 0) (skip_draw 1) 0 0 Hc He Ho).
Defined.

(** ** Running the script again *)
Lemma script_events_names large country :
  map fst (written (script_events large country)) = output_files.
Proof. reflexivity. Qed.

Lemma script_events_printed large country :
  printed (script_events large country) = [success_message].
Proof. reflexivity. Qed.

(** X6.  A second run, started where the first one ended, ends normally as
    well.  It writes the same twenty paths again and creates no other file,
    leaves every file the script does not write as it was before the first
    run, leaves the text of each of the eighteen literal files as the first run
    wrote it, and prints the success message a second time. *)
Theorem second_run_overwrites_the_same_files {G : Type} (draw : G -> Z -> Z * G)
    (w : world G) :
  exists w1 w2 ev1 ev2,
    generate_ngo_data draw w = Some (tt, w1) /\
    generate_ngo_data draw w1 = Some (tt, w2) /\
    bind (generate_ngo_data draw) (fun _ => generate_ngo_data draw) w = Some (tt, w2) /\
    events w1 = events w ++ ev1 /\
    events w2 = events w1 ++ ev2 /\
    printed (ev1 ++ ev2) = [success_message; success_message] /\
    forall fs : gmap string string,
      dom (files_after ev2 (files_after ev1 fs)) = dom (files_after ev1 fs) /\
      (forall p, p ∉ output_files ->
                 files_after ev2 (files_after ev1 fs) !! p = fs !! p) /\
      Forall (fun t => files_after ev2 (files_after ev1 fs) !! file t
                       = files_after ev1 fs !! file t)
             literal_tables.
Proof.
  destruct (generate_ngo_data_events draw w)
    as (l1 & c1 & g1 & g1' & _ & _ & Hrun1).
  destruct (generate_ngo_data_events draw
              (mkWorld g1' (events w ++ script_events l1 c1)))
    as (l2 & c2 & g2 & g2' & _ & _ & Hrun2).
  cbn [events rng] in Hrun2.
  eexists _, _, (script_events l1 c1), (script_events l2 c2).
  split; [exact Hrun1|]. split; [exact Hrun2|].
  split; [unfold bind; rewrite Hrun1; exact Hrun2|].
  split; [reflexivity|]. split; [reflexivity|].
  split.
  { unfold printed. rewrite omap_app. reflexivity. }
  intros fs. split; [|split].
  - rewrite !WriterFacts.files_after_dom, !script_events_names.
    rewrite <- (assoc_L (∪)), (idemp_L (∪)). reflexivity.
  - intros p Hp. rewrite !WriterFacts.files_after_lookup.
    rewrite !last_write_not_written by (rewrite script_events_names; exact Hp).
    reflexivity.
  - pose proof (script_events_literal l1 c1) as H1.
    pose proof (script_events_literal l2 c2) as H2.
    rewrite Forall_forall in H1, H2. apply Forall_forall. intros t Ht.
    rewrite !WriterFacts.files_after_lookup, (H1 t Ht), (H2 t Ht). reflexivity.
Qed.

(** ** Reading back what [to_csv] writes *)

Lemma integer_cell_reads_back_int (n : Z) :
  ReadBack.read_cell Pandas.int64 (Pandas.render (VInt n)) = Some (VInt n).
Proof.
  cbn [ReadBack.read_cell Pandas.render].
  rewrite IntegerFacts.parse_int_pretty. reflexivity.
Qed.

(** X8.  Every integer is written as a text that reads back as the same
    integer, negative numbers and zero included; the written text is never
    empty, so an integer column has no cell that reads as missing. *)
Theorem integer_cell_reads_back (n : Z) :
  ReadBack.read_cell Pandas.int64 (Pandas.render (VInt n)) = Some (VInt n) /\
  Pandas.render (VInt n) <> EmptyString.
Proof.
  pose proof (IntegerFacts.parse_int_pretty n) as H.
  split.
  - cbn [ReadBack.read_cell Pandas.render]. rewrite H. reflexivity.
  - cbn [Pandas.render]. intros E. rewrite E in H. discriminate H.
Qed.

Module ReadBackFacts.
Import Pandas ReadBack.

Lemma series_eta s : mkSeries (dtype_of s) (values s) = s.
Proof. destruct s. reflexivity. Qed.

(** The column at place [j] of the written rows reads back. *)
Lemma read_column (all : list (string * Series)) (j : nat) name s :
  all !! j = Some (name, s) ->
  length (values s) = nrows all ->
  Forall (fun v => read_cell (dtype_of s) (render v) = Some v) (values s) ->
  mapM (fun r : list string => f ← r !! j; read_cell (dtype_of s) f)
       (map (map render) (rows all))
  = Some (values s).
Proof.
  intros Hj Hlen Hcells. apply mapM_Some_2, Forall2_same_length_lookup_2.
  - unfold rows. rewrite !length_map, length_seq. symmetry. exact Hlen.
  - intros i r v Hr Hv.
    assert (i < nrows all)%nat as Hi by (rewrite <- Hlen; eapply lookup_lt_Some, Hv).
    pose proof (WriterFacts.csv_field all i j name s v Hj Hv Hi) as Hf.
    unfold csv_rows in Hf. cbn [lookup list_lookup] in Hf.
    change ((map (map render) (rows all) !! i) ≫= (fun r => r !! j)
            = Some (render v)) in Hf.
    rewrite Hr in Hf. cbn [mbind option_bind] in Hf. rewrite Hf.
    cbn [mbind option_bind].
    rewrite Forall_forall in Hcells. apply Hcells.
    eapply list_elem_of_lookup_2, Hv.
Qed.

Lemma read_columns_frame (all pre df : list (string * Series)) :
  all = pre ++ df ->
  Forall (fun col => length (values (snd col)) = nrows all) df ->
  Forall (fun col => Forall (fun v => read_cell (dtype_of (snd col)) (render v) = Some v)
                            (values (snd col))) df ->
  read_columns (length pre) (columns df) (dtypes df) (map (map render) (rows all))
  = Some df.
Proof.
  revert pre. induction df as [|[name s] df IH]; intros pre Hall Hlen Hcells;
    [reflexivity|].
  apply Forall_cons in Hlen as [Hl Hlen]. apply Forall_cons in Hcells as [Hc Hcells].
  cbn [columns dtypes map fst snd read_columns] in *.
  rewrite (read_column all (length pre) name s); [|rewrite Hall|exact Hl|exact Hc].
  2: { rewrite lookup_app_r by reflexivity. rewrite Nat.sub_diag. reflexivity. }
  cbn [mbind option_bind].
  specialize (IH (pre ++ [(name, s)])).
  rewrite length_app in IH. cbn [length] in IH. rewrite Nat.add_1_r in IH.
  unfold columns, dtypes in IH.
  rewrite IH; [|rewrite <- app_assoc; exact Hall|exact Hlen|exact Hcells].
  cbn [mbind option_bind]. rewrite series_eta. reflexivity.
Qed.

Lemma read_csv_csv_text (df : DataFrame) :
  df <> [] ->
  Forall (fun col => length (values (snd col)) = nrows df) df ->
  Forall (fun col => Forall (fun v => read_cell (dtype_of (snd col)) (render v) = Some v)
                            (values (snd col))) df ->
  Forall (Forall (fun f => Csv.no_CR f = true)) (csv_rows df) ->
  read_csv (dtypes df) (csv_text df) = Some df.
Proof.
  intros Hne Hlen Hcells Hcr. unfold read_csv.
  rewrite (WriterFacts.reader_csv_text df Hne Hcr). unfold csv_rows.
  assert (forallb (fun r : list string => Nat.eqb (length r) (length (columns df)))
                  (map (map render) (rows df)) = true) as ->.
  { apply forallb_forall. intros r Hr. apply Nat.eqb_eq.
    pose proof (WriterFacts.csv_rows_shape df) as Hs. unfold csv_rows in Hs.
    apply Forall_cons in Hs as [_ Hs]. rewrite Forall_forall in Hs.
    apply Hs, list_elem_of_In, Hr. }
  exact (read_columns_frame df [] df eq_refl Hlen Hcells).
Qed.

End ReadBackFacts.

(** X9.  A frame with at least one column, as many values in every column
    as it has rows, no cell that its column type reads differently from what
    is written for it, and no column name or cell text that holds a carriage
    return or is longer than the reader's field size limit, is read back from
    its file as itself: [to_csv] followed by the typed read is the identity on
    such frames. *)
Theorem frame_reads_back (df : Pandas.DataFrame)
    (Hcolumn : df <> [])
    (Hrows : Forall (fun col => length (Pandas.values (snd col)) = Pandas.nrows df) df)
    (Hcells : Forall (fun col =>
                        Forall (fun v => ReadBack.read_cell (Pandas.dtype_of (snd col))
                                           (Pandas.render v) = Some v)
                               (Pandas.values (snd col))) df)
    (Hfields : Csv.readable (Pandas.csv_rows df)) :
  read_back (Some df) = Some df.
Proof.
  apply (ReadBackFacts.read_csv_csv_text df Hcolumn Hrows Hcells).
  eapply Forall_impl; [exact Hfields|]. cbn. intros r Hr.
  eapply Forall_impl; [exact Hr|]. cbn. tauto.
Qed.

Lemma frame_reads_back_witness :
  default [] df_poverty <> [] /\
  Forall (fun col => length (Pandas.values (snd col)) = Pandas.nrows (default [] df_poverty))
         (default [] df_poverty) /\
  Forall (fun col =>
            Forall (fun v => ReadBack.read_cell (Pandas.dtype_of (snd col))
                               (Pandas.render v) = Some v)
                   (Pandas.values (snd col))) (default [] df_poverty) /\
  Csv.readable (Pandas.csv_rows (default [] df_poverty)) /\
  read_back (Some (default [] df_poverty)) = Some (default [] df_poverty).
Proof.
  assert (default [] df_poverty <> []) as H1 by discriminate.
  assert (Forall (fun col => length (Pandas.values (snd col))
                             = Pandas.nrows (default [] df_poverty))
            (default [] df_poverty)) as H2 by (repeat constructor).
  assert (Forall (fun col =>
                    Forall (fun v => ReadBack.read_cell (Pandas.dtype_of (snd col))
                                       (Pandas.render v) = Some v)
                           (Pandas.values (snd col))) (default [] df_poverty)) as H3
    by (repeat constructor).
  assert (Csv.readable (Pandas.csv_rows (default [] df_poverty))) as H4
    by (unfold Csv.readable; apply (bool_decide_unpack _); vm_compute; exact I).
  split; [exact H1|]. split; [exact H2|]. split; [exact H3|]. split; [exact H4|].
  exact (frame_reads_back (default [] df_poverty) H1 H2 H3 H4).
Defined.

(** ** The files of the sampled tables *)
Lemma string_cell_reads_back s :
  s <> EmptyString ->
  ReadBack.read_cell Pandas.object (Pandas.render (VStr s)) = Some (VStr s).
Proof. intros Hs. destruct s; [congruence|reflexivity]. Qed.

(** Every date a cell of large_country_data can hold is written as a text
    that reads back as the same date. *)
Lemma dates_read_back :
  Forall (fun o => ReadBack.read_cell Pandas.datetime64 (Pandas.render (VDate o))
                   = Some (VDate o))
         (map (fun x => start_date + x) (range (1460 + 29))).
Proof. apply (bool_decide_unpack _). vm_compute. exact I. Qed.

Lemma date_reads_back o :
  start_date <= o < start_date + (1460 + 29) ->
  ReadBack.read_cell Pandas.datetime64 (Pandas.render (VDate o)) = Some (VDate o).
Proof.
  intros Ho. pose proof dates_read_back as H. rewrite Forall_forall in H.
  apply H, list_elem_of_In, in_map_iff. exists (o - start_date). split; [lia|].
  unfold range. apply in_map_iff. exists (Z.to_nat (o - start_date)). split; [lia|].
  apply in_seq. lia.
Qed.

Lemma strs_read_back (vocabulary l : list string) :
  Forall (fun s => s <> EmptyString) vocabulary ->
  Forall (fun s => In s vocabulary) l ->
  Forall (fun v => ReadBack.read_cell Pandas.object (Pandas.render v) = Some v) (strs l).
Proof.
  intros Hv Hl. unfold strs. apply Forall_map. eapply Forall_impl; [exact Hl|].
  cbn. intros s Hs. apply string_cell_reads_back.
  rewrite Forall_forall in Hv. apply Hv, list_elem_of_In, Hs.
Qed.

Lemma ints_read_back (l : list Z) :
  Forall (fun v => ReadBack.read_cell Pandas.int64 (Pandas.render v) = Some v) (ints l).
Proof.
  unfold ints. apply Forall_map, Forall_forall. intros n _.
  apply integer_cell_reads_back_int.
Qed.

Lemma large_sample_reads_back {G : Type} (draw : G -> Z -> Z * G) (g : G) :
  exists large g1,
    df_large_sample draw g = Some (large, g1) /\ read_back (Some large) = Some large.
Proof.
  destruct (df_large_sample_run draw g)
    as (region & status & budget & g1 & Hrun & Hr & Hs & Hb & Hrv & Hsv & _).
  eexists _, g1. split; [exact Hrun|].
  assert (length (np_arange 1 (num_rows_large + 1)) = Z.to_nat num_rows_large) as Hid.
  { rewrite np_arange_length. lia. }
  apply ReadBackFacts.read_csv_csv_text;
    [discriminate| | |exact (proj2 (large_sample_no_CR draw g _ _ Hrun))].
  - cbn [Pandas.nrows Pandas.values].
    do 4 (apply Forall_cons; split;
          [cbn [snd Pandas.values]; unfold ints, strs; rewrite !length_map; congruence|]).
    apply Forall_nil_2.
  - apply Forall_cons; split; [apply ints_read_back|].
    apply Forall_cons; split;
      [refine (strs_read_back _ _ _ Hrv); repeat constructor; discriminate|].
    apply Forall_cons; split;
      [refine (strs_read_back _ _ _ Hsv); repeat constructor; discriminate|].
    apply Forall_cons; split; [apply ints_read_back|]. apply Forall_nil_2.
Qed.

Lemma country_reads_back {G : Type} (draw : G -> Z -> Z * G) (g : G) :
  in_range draw ->
  exists country g2,
    df_country draw g = Some (country, g2) /\ read_back (Some country) = Some country.
Proof.
  intros Hrange. eexists _, _. split; [apply df_country_run|].
  pose proof (proj2 (country_no_CR draw g _ _ (df_country_run draw g))) as Hcr.
  revert Hcr.
  assert (date_range <> []) as Hdr
    by (intros E; apply (f_equal length) in E; discriminate E).
  pose proof (draws_length draw (Z.to_nat num_rows_country)
                (Z.of_nat (length countries)) g) as Hc.
  pose proof (draws_length draw (Z.to_nat num_rows_country)
                (Z.of_nat (length date_range)) (snd (country_draws draw g))) as He.
  pose proof (draws_length draw (Z.to_nat num_rows_country)
                (30 - 1) (snd (report_draws draw g))) as Ho.
  pose proof (draws_in_range draw (Z.to_nat num_rows_country) (30 - 1)
                (snd (report_draws draw g)) Hrange ltac:(lia)) as Hor.
  fold (country_draws draw g) in Hc. fold (event_draws draw g) in He.
  fold (offset_draws draw g) in Ho, Hor.
  revert Hc He Ho Hor.
  generalize (fst (country_draws draw g)) as cs.
  generalize (fst (event_draws draw g)) as es.
  generalize (fst (offset_draws draw g)) as os.
  generalize (Z.to_nat num_rows_country) as n.
  intros n os es cs Hc He Ho Hor Hcr.
  apply ReadBackFacts.read_csv_csv_text; [discriminate| | |exact Hcr].
  - cbn [Pandas.nrows Pandas.values].
    do 3 (apply Forall_cons; split;
          [cbn [snd Pandas.values]; unfold strs;
           rewrite ?length_map, ?length_zip_with, ?length_map; lia|]).
    apply Forall_nil_2.
  - apply Forall_cons; split.
    { cbn [snd Pandas.values Pandas.dtype_of].
      apply (strs_read_back countries); [repeat constructor; discriminate|].
      apply Forall_map, Forall_forall. intros x _. apply choice_in. discriminate. }
    apply Forall_cons; split.
    { cbn [snd Pandas.values Pandas.dtype_of]. apply Forall_map, Forall_map, Forall_forall.
      intros x _. cbn. apply date_reads_back.
      pose proof (date_range_bounds _ (choice_in date_range 0 x Hdr)). lia. }
    apply Forall_cons; split; [|apply Forall_nil_2].
    cbn [snd Pandas.values Pandas.dtype_of]. apply Forall_map, Forall_forall.
    intros r Hr. cbn. apply list_elem_of_lookup in Hr as [i Hi].
    rewrite lookup_zip_with, !list_lookup_fmap in Hi.
    destruct (es !! i) as [x|]; [|discriminate Hi].
    destruct (os !! i) as [o|] eqn:Eo; [|discriminate Hi].
    cbn [fmap option_fmap option_map mbind option_bind] in Hi.
    apply (inj Some) in Hi. subst r. apply date_reads_back.
    pose proof (date_range_bounds _ (choice_in date_range 0 x Hdr)).
    rewrite Forall_forall in Hor. specialize (Hor o (list_elem_of_lookup_2 _ _ _ Eo)).
    lia.
Qed.

(** X10.  The files of the two sampled tables read back as the sampled
    tables, in every run: the round trip of the literal tables holds for
    large_ngo_projects and large_country_data as well, with their 100000
    rows. *)
Theorem sampled_files_read_back {G : Type} (draw : G -> Z -> Z * G)
    (Hrange : in_range draw) (g : G) :
  exists large g1 country g2,
    df_large_sample draw g = Some (large, g1) /\
    df_country draw g1 = Some (country, g2) /\
    read_back (Some large) = Some large /\
    read_back (Some country) = Some country.
Proof.
  destruct (large_sample_reads_back draw g) as (large & g1 & Hl & Hlb).
  destruct (country_reads_back draw g1 Hrange) as (country & g2 & Hc & Hcb).
  exists large, g1, country, g2. auto.
Qed.

Lemma sampled_files_read_back_witness :
  in_range counter_draw /\
  exists large g1 country g2,
    df_large_sample counter_draw 0 = Some (large, g1) /\
    df_country counter_draw g1 = Some (country, g2) /\
    read_back (Some large) = Some large /\
    read_back (Some country) = Some country.
Proof.
  split; [exact in_range_counter_draw|].
  exact (sampled_files_read_back counter_draw in_range_counter_draw 0).
Defined.
